(** * Admin server actions (src/actions/admin.js)

    A shallow embedding of the seven exported server actions of
    [src/actions/admin.js] and of the few JavaScript and Prisma operations
    they rely on, followed by the properties of the admin operations
    specification.

    The actions are asynchronous functions over an ambient request identity
    (Clerk's [auth()]), a relational store reached through the Prisma client
    [db], the [next/cache] invalidation signal and the console.  They are
    embedded as functions of an explicit [Request] in a state-and-exception
    monad over a [World]. *)

From Stdlib Require Import ZArith List String Bool Lia Permutation Sorted.
Import ListNotations.

#[local] Open Scope string_scope.
#[local] Open Scope Z_scope.
#[local] Set Warnings "-register-all".

(* ================================================================== *)
(** ** JavaScript values *)

(** The fragment of JavaScript values that flows through the actions: form
    fields, Prisma results, and the objects returned to the caller. *)
Inductive JsValue : Type :=
| JUndefined
| JNull
| JNaN
| JBool (b : bool)
| JNum (n : Z)
| JStr (s : string)
| JDate (t : Z)
| JArr (items : list JsValue)
| JObj (props : list (string * JsValue)).

(** Outcome of evaluating an expression: a value, or a thrown [Error] (of any
    class) identified by its [message], the only part the actions read. *)
Inductive Result (A : Type) : Type :=
| Ok (a : A)
| Throw (message : string).
Arguments Ok {A} a.
Arguments Throw {A} message.

(** ToBoolean, as used by [!v] and [a || b]. *)
Definition truthy (v : JsValue) : bool :=
  match v with
  | JUndefined | JNull | JNaN => false
  | JBool b => b
  | JNum n => negb (n =? 0)
  | JStr s => negb (s =? "")%string
  | JDate _ | JArr _ | JObj _ => true
  end.

(** [a || b] *)
Definition js_or (a b : JsValue) : JsValue := if truthy a then a else b.

(** [v === "lit"] for a string literal. *)
Definition strict_eq_str (v : JsValue) (lit : string) : bool :=
  match v with
  | JStr s => (s =? lit)%string
  | _ => false
  end.

(** [[l1, ..., ln].includes(v)] for an array literal of strings. *)
Definition includes (lits : list string) (v : JsValue) : bool :=
  existsb (strict_eq_str v) lits.

(** Own property lookup; an absent key reads as [undefined]. *)
Fixpoint lookup_prop (k : string) (props : list (string * JsValue)) : JsValue :=
  match props with
  | [] => JUndefined
  | (k', v) :: rest => if (k' =? k)%string then v else lookup_prop k rest
  end.

(** [v.k]: a TypeError on [undefined] and [null].  The keys read by the
    actions ([role], [id], [doctor], [credits], [doctorId]) are not
    properties of any primitive, array or date, which therefore read as
    [undefined]. *)
Definition get_prop (v : JsValue) (k : string) : Result JsValue :=
  match v with
  | JUndefined =>
      Throw ("Cannot read properties of undefined (reading '" ++ k ++ "')")
  | JNull =>
      Throw ("Cannot read properties of null (reading '" ++ k ++ "')")
  | JObj props => Ok (lookup_prop k props)
  | _ => Ok JUndefined
  end.

(** [v?.k] *)
Definition get_prop_opt (v : JsValue) (k : string) : JsValue :=
  match v with
  | JObj props => lookup_prop k props
  | _ => JUndefined
  end.

(** [a < b].  Both operands are integer columns or [undefined]; a comparison
    involving [undefined] or [NaN] is false. *)
Definition js_lt (a b : JsValue) : bool :=
  match a, b with
  | JNum x, JNum y => x <? y
  | _, _ => false
  end.

(** Unary minus, [-v], on the same operands. *)
Definition js_neg (v : JsValue) : JsValue :=
  match v with
  | JNum n => JNum (- n)
  | _ => JNaN
  end.

(** [FormData]: an ordered list of named entries, each a string or a file. *)
Inductive FormDataEntryValue : Type :=
| FString (s : string)
| FFile (fileName : string).

Definition FormData : Type := list (string * FormDataEntryValue).

Definition entry_value (e : FormDataEntryValue) : JsValue :=
  match e with
  | FString s => JStr s
  | FFile n => JObj [("name", JStr n)]
  end.

(** [formData.get(k)]: the first entry named [k], or [null]. *)
Fixpoint formData_get (formData : FormData) (k : string) : JsValue :=
  match formData with
  | [] => JNull
  | (k', e) :: rest =>
      if (k' =? k)%string then entry_value e else formData_get rest k
  end.

(* ================================================================== *)
(** ** The store *)

(** Modelled from the spec: the Prisma schema is not among the sources.  The
    records carry the columns named in the data model of the spec and used
    by the queries of [admin.js]; enumerations are kept as the strings the
    code writes and compares. *)
Record User : Type := mkUser {
  user_id : string;
  user_clerkUserId : string;
  user_role : string;
  user_verificationStatus : string;
  user_credits : Z;
  user_name : string;
  user_email : string;
  user_specialty : string;
  user_createdAt : Z
}.

Record Payout : Type := mkPayout {
  payout_id : string;
  payout_owner : string;          (* foreign key to the owning provider *)
  payout_credits : Z;             (* requested amount *)
  payout_status : string;
  payout_createdAt : Z;
  payout_processedAt : option Z;
  payout_processedBy : option string
}.

(** The generated id of a ledger row is read by no action and is left out. *)
Record CreditTransaction : Type := mkCreditTransaction {
  ct_userId : string;
  ct_amount : Z;
  ct_type : string
}.

Record Store : Type := mkStore {
  users : list User;
  payouts : list Payout;
  creditTransactions : list CreditTransaction
}.

(** What an action can observe and change: the store, the paths handed to
    [revalidatePath], and the lines written with [console.error]. *)
Record World : Type := mkWorld {
  db : Store;
  revalidated : list string;
  console : list string
}.

(** The store calls of [admin.js], one per call site. *)
Inductive DbCall : Type :=
| VerifyAdmin_findUnique          (* line 18 *)
| PendingDoctors_findMany         (* line 39 *)
| VerifiedLawyers_findMany        (* line 63 *)
| LawyerStatus_update             (* line 95 *)
| ActiveStatus_update             (* line 129 *)
| PendingPayouts_findMany         (* line 154 *)
| Approve_findAdmin               (* line 197 *)
| Approve_findPayout              (* line 202 *)
| Tx_payoutUpdate                 (* line 224 *)
| Tx_userUpdate                   (* line 236 *)
| Tx_creditTransactionCreate      (* line 248 *)
| Tx_commit.                      (* end of the callback of line 222 *)

(** One incoming call: how [await auth()] ends for it (it resolves to a
    [userId], [null] when nobody is signed in, or it rejects with an error),
    the clock read by [new Date()], and for each store call whether the
    store fails there (connection lost, timeout, ...) and with which
    message.  An action reaches each store call site at most once. *)
Record Request : Type := mkRequest {
  auth_userId : Result (option string);
  now : Z;
  dbError : DbCall -> option string
}.

(* ================================================================== *)
(** ** The monad of actions *)

Definition M (A : Type) : Type := World -> Result A * World.

Definition ret {A} (a : A) : M A := fun w => (Ok a, w).

Definition throw {A} (message : string) : M A := fun w => (Throw message, w).

Definition bind {A B} (m : M A) (k : A -> M B) : M B :=
  fun w =>
    match m w with
    | (Ok a, w') => k a w'
    | (Throw e, w') => (Throw e, w')
    end.

(** [try { m } catch (error) { h error.message }] *)
Definition try_catch {A} (m : M A) (h : string -> M A) : M A :=
  fun w =>
    match m w with
    | (Ok a, w') => (Ok a, w')
    | (Throw e, w') => h e w'
    end.

Definition lift {A} (r : Result A) : M A := fun w => (r, w).

Notation "x <- m ;; k" := (bind m (fun x => k))
  (at level 61, m at next level, right associativity).
Notation "m ;;; k" := (bind m (fun _ => k))
  (at level 61, right associativity).

Definition console_error (label message : string) : M unit :=
  fun w => (Ok tt, mkWorld (db w) (revalidated w) (console w ++ [label ++ " " ++ message])).

Definition revalidatePath (path : string) : M unit :=
  fun w => (Ok tt, mkWorld (db w) (revalidated w ++ [path]) (console w)).

Definition set_db (w : World) (s : Store) : World :=
  mkWorld s (revalidated w) (console w).

(** A call of the Prisma client at call site [c]: it throws when the store
    fails there, and otherwise runs the query on the store. *)
Definition db_call {A} (req : Request) (c : DbCall)
    (query : Store -> Result A * Store) : M A :=
  fun w =>
    match dbError req c with
    | Some message => (Throw message, w)
    | None => let '(r, s) := query (db w) in (r, set_db w s)
    end.

(** [db.$transaction(async (tx) => body)]: the writes of [body] are committed
    when it returns and the commit goes through; they are rolled back when
    it throws. *)
Definition transaction {A} (req : Request) (body : M A) : M A :=
  fun w =>
    match body w with
    | (Ok a, w') =>
        match dbError req Tx_commit with
        | Some message => (Throw message, set_db w' (db w))
        | None => (Ok a, w')
        end
    | (Throw e, w') => (Throw e, set_db w' (db w))
    end.

(* ================================================================== *)
(** ** Prisma queries *)

Section Actions.

(** Modelled from the spec: the Prisma schema is not among the sources.  The
    queries of [admin.js] name the relation from a payout to its owning
    provider [lawyer] (lines 159 and 208); the name of the scalar foreign-key
    column under it is a parameter, and so is the collation the store orders
    names by. *)
Variable ownerKey : string.
Variable nameLeb : string -> string -> bool.

Definition user_obj (u : User) : JsValue :=
  JObj [("id", JStr (user_id u));
        ("clerkUserId", JStr (user_clerkUserId u));
        ("role", JStr (user_role u));
        ("verificationStatus", JStr (user_verificationStatus u));
        ("credits", JNum (user_credits u));
        ("name", JStr (user_name u));
        ("email", JStr (user_email u));
        ("specialty", JStr (user_specialty u));
        ("createdAt", JDate (user_createdAt u))].

(** [select: { id, name, email, specialty, credits }] *)
Definition user_select_obj (u : User) : JsValue :=
  JObj [("id", JStr (user_id u));
        ("name", JStr (user_name u));
        ("email", JStr (user_email u));
        ("specialty", JStr (user_specialty u));
        ("credits", JNum (user_credits u))].

Definition nullable {A} (f : A -> JsValue) (o : option A) : JsValue :=
  match o with
  | Some a => f a
  | None => JNull
  end.

Definition find_user (id : string) (s : Store) : option User :=
  find (fun u => (user_id u =? id)%string) (users s).

(** A payout row with [include: { lawyer: ... }]: its scalar columns and the
    owning provider under [lawyer]. *)
Definition payout_obj (lawyer : User -> JsValue) (s : Store) (p : Payout) : JsValue :=
  JObj [("id", JStr (payout_id p));
        (ownerKey, JStr (payout_owner p));
        ("credits", JNum (payout_credits p));
        ("status", JStr (payout_status p));
        ("createdAt", JDate (payout_createdAt p));
        ("processedAt", nullable JDate (payout_processedAt p));
        ("processedBy", nullable JStr (payout_processedBy p));
        ("lawyer", nullable lawyer (find_user (payout_owner p) s))].

(** [orderBy]: a stable sort by the given order. *)
Fixpoint insert_by {A} (leb : A -> A -> bool) (x : A) (l : list A) : list A :=
  match l with
  | [] => [x]
  | y :: rest => if leb x y then x :: l else y :: insert_by leb x rest
  end.

Definition orderBy {A} (leb : A -> A -> bool) (l : list A) : list A :=
  fold_right (insert_by leb) [] l.

Definition createdAt_desc (a b : User) : bool :=
  user_createdAt b <=? user_createdAt a.

Definition name_asc (a b : User) : bool :=
  nameLeb (user_name a) (user_name b).

Definition payout_createdAt_desc (a b : Payout) : bool :=
  payout_createdAt b <=? payout_createdAt a.

(** A query that only reads. *)
Definition reading {A} (f : Store -> Result A) : Store -> Result A * Store :=
  fun s => (f s, s).

Definition invalid_argument : string := "Invalid invocation: argument validation failed".
Definition record_not_found : string := "Record to update not found.".
Definition foreign_key_failed : string := "Foreign key constraint failed".

(** [db.user.findUnique({ where: { clerkUserId } })] *)
Definition user_findUnique (clerkUserId : JsValue) : Store -> Result JsValue * Store :=
  reading (fun s =>
    match clerkUserId with
    | JStr c =>
        Ok (nullable user_obj
              (find (fun u => (user_clerkUserId u =? c)%string) (users s)))
    | _ => Throw invalid_argument
    end).

Definition matching_users (role status : string) (s : Store) : list User :=
  filter (fun u => (user_role u =? role)%string
                   && (user_verificationStatus u =? status)%string) (users s).

(** [db.user.findMany({ where: { role, verificationStatus }, orderBy })] *)
Definition user_findMany (role status : string) (leb : User -> User -> bool)
    : Store -> Result JsValue * Store :=
  reading (fun s =>
    Ok (JArr (map user_obj (orderBy leb (matching_users role status s))))).

Definition set_verificationStatus (status : string) (u : User) : User :=
  mkUser (user_id u) (user_clerkUserId u) (user_role u) status
         (user_credits u) (user_name u) (user_email u) (user_specialty u)
         (user_createdAt u).

Definition decrement_credits (amount : Z) (u : User) : User :=
  mkUser (user_id u) (user_clerkUserId u) (user_role u)
         (user_verificationStatus u) (user_credits u - amount)
         (user_name u) (user_email u) (user_specialty u) (user_createdAt u).

Definition update_users (id : string) (f : User -> User) (s : Store) : Store :=
  mkStore (map (fun u => if (user_id u =? id)%string then f u else u) (users s))
          (payouts s) (creditTransactions s).

(** [db.user.update({ where: { id }, data: { verificationStatus } })] *)
Definition user_update_status (id status : JsValue) : Store -> Result unit * Store :=
  fun s =>
    match id, status with
    | JStr i, JStr st =>
        match find_user i s with
        | Some _ => (Ok tt, update_users i (set_verificationStatus st) s)
        | None => (Throw record_not_found, s)
        end
    | _, _ => (Throw invalid_argument, s)
    end.

(** [tx.user.update({ where: { id }, data: { credits: { decrement } } })] *)
Definition user_update_decrement (id amount : JsValue) : Store -> Result unit * Store :=
  fun s =>
    match id, amount with
    | JStr i, JNum n =>
        match find_user i s with
        | Some _ => (Ok tt, update_users i (decrement_credits n) s)
        | None => (Throw record_not_found, s)
        end
    | _, _ => (Throw invalid_argument, s)
    end.

Definition processing_payouts (s : Store) : list Payout :=
  filter (fun p => (payout_status p =? "PROCESSING")%string) (payouts s).

(** [db.payout.findMany({ where: { status: "PROCESSING" },
      include: { lawyer: { select } }, orderBy: { createdAt: "desc" } })] *)
Definition payout_findMany_processing : Store -> Result JsValue * Store :=
  reading (fun s =>
    Ok (JArr (map (payout_obj user_select_obj s)
                  (orderBy payout_createdAt_desc (processing_payouts s))))).

Definition find_payout (id status : string) (s : Store) : option Payout :=
  find (fun p => (payout_id p =? id)%string && (payout_status p =? status)%string)
       (payouts s).

(** [db.payout.findUnique({ where: { id, status }, include: { lawyer: true } })] *)
Definition payout_findUnique (id : JsValue) (status : string)
    : Store -> Result JsValue * Store :=
  reading (fun s =>
    match id with
    | JStr i => Ok (nullable (payout_obj user_obj s) (find_payout i status s))
    | _ => Throw invalid_argument
    end).

Definition mark_processed (status : string) (at_ : Z) (by_ : string) (p : Payout) : Payout :=
  mkPayout (payout_id p) (payout_owner p) (payout_credits p) status
           (payout_createdAt p) (Some at_) (Some by_).

(** [tx.payout.update({ where: { id },
      data: { status, processedAt, processedBy } })] *)
Definition payout_update (id : JsValue) (status : string) (processedAt : Z)
    (processedBy : JsValue) : Store -> Result unit * Store :=
  fun s =>
    match id, processedBy with
    | JStr i, JStr by_ =>
        match find (fun p => (payout_id p =? i)%string) (payouts s) with
        | Some _ =>
            (Ok tt,
             mkStore (users s)
               (map (fun p => if (payout_id p =? i)%string
                              then mark_processed status processedAt by_ p
                              else p) (payouts s))
               (creditTransactions s))
        | None => (Throw record_not_found, s)
        end
    | _, _ => (Throw invalid_argument, s)
    end.

(** [tx.creditTransaction.create({ data: { userId, amount, type } })] *)
Definition creditTransaction_create (userId amount : JsValue) (type : string)
    : Store -> Result unit * Store :=
  fun s =>
    match userId, amount with
    | JStr u, JNum n =>
        match find_user u s with
        | Some _ =>
            (Ok tt,
             mkStore (users s) (payouts s)
               (creditTransactions s ++ [mkCreditTransaction u n type]))
        | None => (Throw foreign_key_failed, s)
        end
    | _, _ => (Throw invalid_argument, s)
    end.

(* ================================================================== *)
(** ** The actions *)

(** [const { userId } = await auth()]: the [userId] when the identity call
    resolves, its error when it rejects. *)
Definition auth (req : Request) : M JsValue :=
  lift (match auth_userId req with
        | Ok userId => Ok (nullable JStr userId)
        | Throw message => Throw message
        end).

Definition success : JsValue := JObj [("success", JBool true)].

(** Lines 10-29. *)
Definition verifyAdmin (req : Request) : M bool :=
  userId <- auth req ;;
  if negb (truthy userId) then ret false
  else
    try_catch
      (user <- db_call req VerifyAdmin_findUnique (user_findUnique userId) ;;
       ret (strict_eq_str (get_prop_opt user "role") "ADMIN"))
      (fun error =>
         console_error "Failed to verify admin:" error ;;;
         ret false).

(** Lines 34-53. *)
Definition getPendingDoctors (req : Request) : M JsValue :=
  isAdmin <- verifyAdmin req ;;
  if negb isAdmin then throw "Unauthorized"
  else
    try_catch
      (pendingLawyers <- db_call req PendingDoctors_findMany
                           (user_findMany "LAWYER" "PENDING" createdAt_desc) ;;
       ret (JObj [("doctors", pendingLawyers)]))
      (fun error => throw "Failed to fetch pending lawyers").

(** Lines 58-78. *)
Definition getVerifiedLawyers (req : Request) : M JsValue :=
  isAdmin <- verifyAdmin req ;;
  if negb isAdmin then throw "Unauthorized"
  else
    try_catch
      (verifiedLawyers <- db_call req VerifiedLawyers_findMany
                            (user_findMany "LAWYER" "VERIFIED" name_asc) ;;
       ret (JObj [("lawyers", verifiedLawyers)]))
      (fun error =>
         console_error "Failed to get verified lawyers:" error ;;;
         ret (JObj [("error", JStr "Failed to fetch verified lawyers")])).

(** Lines 83-110. *)
Definition updateLawyerStatus (req : Request) (formData : FormData) : M JsValue :=
  isAdmin <- verifyAdmin req ;;
  if negb isAdmin then throw "Unauthorized"
  else
    let lawyerId := formData_get formData "lawyerId" in
    let status := formData_get formData "status" in
    if negb (truthy lawyerId) || negb (includes ["VERIFIED"; "REJECTED"] status)
    then throw "Invalid input"
    else
      try_catch
        (db_call req LawyerStatus_update (user_update_status lawyerId status) ;;;
         revalidatePath "/admin" ;;;
         ret success)
        (fun error =>
           console_error "Failed to update lawyer status:" error ;;;
           throw ("Failed to update lawyer status: " ++ error)).

(** Lines 115-144. *)
Definition updateLawyerActiveStatus (req : Request) (formData : FormData) : M JsValue :=
  isAdmin <- verifyAdmin req ;;
  if negb isAdmin then throw "Unauthorized"
  else
    let lawyerId := formData_get formData "lawyerId" in
    let suspend := strict_eq_str (formData_get formData "suspend") "true" in
    if negb (truthy lawyerId) then throw "LAWYER ID is required"
    else
      try_catch
        (let status := if suspend then "PENDING" else "VERIFIED" in
         db_call req ActiveStatus_update
           (user_update_status lawyerId (JStr status)) ;;;
         revalidatePath "/admin" ;;;
         ret success)
        (fun error =>
           console_error "Failed to update lawyer active status:" error ;;;
           throw ("Failed to update lawyer status: " ++ error)).

(** Lines 149-179. *)
Definition getPendingPayouts (req : Request) : M JsValue :=
  isAdmin <- verifyAdmin req ;;
  if negb isAdmin then throw "Unauthorized"
  else
    try_catch
      (pendingPayouts <- db_call req PendingPayouts_findMany
                           payout_findMany_processing ;;
       ret (JObj [("payouts", pendingPayouts)]))
      (fun error =>
         console_error "Failed to fetch pending payouts:" error ;;;
         throw "Failed to fetch pending payouts").

(** Lines 222-255: the three writes of an approval, in one transaction. *)
Definition approveTransaction (req : Request) (payoutId admin payout : JsValue) : M unit :=
  transaction req
    (db_call req Tx_payoutUpdate
       (payout_update payoutId "PROCESSED" (now req)
          (js_or (get_prop_opt admin "id") (JStr "unknown"))) ;;;
     doctorId <- lift (get_prop payout "doctorId") ;;
     credits <- lift (get_prop payout "credits") ;;
     db_call req Tx_userUpdate (user_update_decrement doctorId credits) ;;;
     doctorId' <- lift (get_prop payout "doctorId") ;;
     credits' <- lift (get_prop payout "credits") ;;
     db_call req Tx_creditTransactionCreate
       (creditTransaction_create doctorId' (js_neg credits') "ADMIN_ADJUSTMENT")).

(** Lines 184-263. *)
Definition approvePayout (req : Request) (formData : FormData) : M JsValue :=
  isAdmin <- verifyAdmin req ;;
  if negb isAdmin then throw "Unauthorized"
  else
    let payoutId := formData_get formData "payoutId" in
    if negb (truthy payoutId) then throw "Payout ID is required"
    else
      try_catch
        (userId <- auth req ;;
         admin <- db_call req Approve_findAdmin (user_findUnique userId) ;;
         payout <- db_call req Approve_findPayout
                     (payout_findUnique payoutId "PROCESSING") ;;
         if negb (truthy payout)
         then throw "Payout request not found or already processed"
         else
           doctor <- lift (get_prop payout "doctor") ;;
           doctorCredits <- lift (get_prop doctor "credits") ;;
           payoutCredits <- lift (get_prop payout "credits") ;;
           if js_lt doctorCredits payoutCredits
           then throw "lawyer doesn't have enough credits for this payout"
           else
             approveTransaction req payoutId admin payout ;;;
             revalidatePath "/admin" ;;;
             ret success)
        (fun error =>
           console_error "Failed to approve payout:" error ;;;
           throw ("Failed to approve payout: " ++ error)).

End Actions.

(* ================================================================== *)
(** ** Sample data: the scenarios of the specification *)

Module Sample.

Definition admin : User :=
  mkUser "u-admin" "clerk-admin" "ADMIN" "VERIFIED" 0 "Ada" "ada@example.org" "" 1.

Definition provider : User :=
  mkUser "u-prov" "clerk-prov" "LAWYER" "VERIFIED" 100 "Dan" "dan@example.org" "tax" 2.

Definition applicant : User :=
  mkUser "u-appl" "clerk-appl" "LAWYER" "PENDING" 0 "Eve" "eve@example.org" "family" 3.

(** A payout of 50 credits, and one of 150, both requested by [provider]. *)
Definition payout50 : Payout := mkPayout "p-50" "u-prov" 50 "PROCESSING" 5 None None.
Definition payout150 : Payout := mkPayout "p-150" "u-prov" 150 "PROCESSING" 6 None None.
Definition payoutDone : Payout :=
  mkPayout "p-done" "u-prov" 10 "PROCESSED" 4 (Some 7) (Some "u-admin").

Definition store : Store :=
  mkStore [admin; provider; applicant] [payout50; payout150; payoutDone] [].

Definition world : World := mkWorld store [] [].

Definition no_failure : DbCall -> option string := fun _ => None.

Definition fails_at (c : DbCall) : DbCall -> option string :=
  fun c' =>
    match c, c' with
    | VerifyAdmin_findUnique, VerifyAdmin_findUnique
    | PendingDoctors_findMany, PendingDoctors_findMany
    | VerifiedLawyers_findMany, VerifiedLawyers_findMany
    | Tx_userUpdate, Tx_userUpdate
    | Tx_creditTransactionCreate, Tx_creditTransactionCreate => Some "connection lost"
    | _, _ => None
    end.

Definition byAdmin : Request := mkRequest (Ok (Some "clerk-admin")) 99 no_failure.
Definition byProvider : Request := mkRequest (Ok (Some "clerk-prov")) 99 no_failure.
Definition anonymous : Request := mkRequest (Ok None) 99 no_failure.
Definition byAdminFailing (c : DbCall) : Request :=
  mkRequest (Ok (Some "clerk-admin")) 99 (fails_at c).

Definition form (fields : list (string * string)) : FormData :=
  map (fun kv => (fst kv, FString (snd kv))) fields.

(** The payout of 50 as line 202 would hand it over under a schema whose
    foreign-key column is [doctorId], and the world after the transaction of
    lines 222-255 has committed for it. *)
Definition payout50_obj : JsValue := payout_obj "doctorId" user_obj store payout50.

Definition afterApproval : World :=
  snd (approveTransaction byAdmin (JStr "p-50") (user_obj admin) payout50_obj world).

End Sample.

(** Further sample requests and forms. *)
Module SampleMore.

(** The store fails on every write of a status, on the listing of payouts
    and on the first lookup of an approval; the privilege lookup works. *)
Definition writes_fail : DbCall -> option string :=
  fun c =>
    match c with
    | LawyerStatus_update | ActiveStatus_update
    | PendingPayouts_findMany | Approve_findAdmin => Some "connection lost"
    | _ => None
    end.

(** The identity provider cannot be reached: [auth()] rejects. *)
Definition identityDown : Request :=
  mkRequest (Throw "identity provider unreachable") 99 Sample.no_failure.

(** A store with three providers waiting for verification and three
    verified ones, entered in neither creation nor name order. *)
Definition pendingA : User :=
  mkUser "u-pa" "clerk-pa" "LAWYER" "PENDING" 0 "Pia" "pia@example.org" "tax" 30.
Definition pendingB : User :=
  mkUser "u-pb" "clerk-pb" "LAWYER" "PENDING" 0 "Bo" "bo@example.org" "family" 90.
Definition pendingC : User :=
  mkUser "u-pc" "clerk-pc" "LAWYER" "PENDING" 0 "Cy" "cy@example.org" "labour" 50.
Definition verifiedM : User :=
  mkUser "u-vm" "clerk-vm" "LAWYER" "VERIFIED" 10 "Max" "max@example.org" "tax" 11.
Definition verifiedZ : User :=
  mkUser "u-vz" "clerk-vz" "LAWYER" "VERIFIED" 20 "Zoe" "zoe@example.org" "tax" 12.
Definition verifiedA : User :=
  mkUser "u-va" "clerk-va" "LAWYER" "VERIFIED" 30 "Ann" "ann@example.org" "tax" 13.

Definition registry : World :=
  mkWorld
    (mkStore [Sample.admin; pendingA; verifiedM; pendingB; verifiedZ; pendingC;
              verifiedA]
             [] [])
    [] [].

Definition byAdminStoreDown : Request :=
  mkRequest (Ok (Some "clerk-admin")) 99 writes_fail.

Definition verifyApplicant : FormData :=
  Sample.form [("lawyerId", "u-appl"); ("status", "VERIFIED")].

Definition rejectApplicant : FormData :=
  Sample.form [("lawyerId", "u-appl"); ("status", "REJECTED")].

Definition suspendAdmin : FormData :=
  Sample.form [("lawyerId", "u-admin"); ("suspend", "true")].

Definition verifyNobody : FormData :=
  Sample.form [("lawyerId", "u-nobody"); ("status", "VERIFIED")].

(** The entries [getPendingPayouts] lists from the sample store. *)
Definition pendingEntries : list JsValue :=
  map (payout_obj "lawyerId" user_select_obj Sample.store)
      [Sample.payout150; Sample.payout50].

End SampleMore.

(* ================================================================== *)
(** ** Vocabulary of the properties *)

(** The caller's own record, as [verifyAdmin] resolves it. *)
Definition by_clerkUserId (uid : string) (u : User) : bool :=
  (user_clerkUserId u =? uid)%string.

Definition resolves_to_admin (req : Request) (s : Store) : Prop :=
  exists uid u,
    auth_userId req = Ok (Some uid) /\ uid <> "" /\
    dbError req VerifyAdmin_findUnique = None /\
    find (by_clerkUserId uid) (users s) = Some u /\
    user_role u = "ADMIN".

(** The identity call of the request resolves (to a user id or to nobody)
    rather than rejecting. *)
Definition identity_resolves (req : Request) : Prop :=
  exists identity, auth_userId req = Ok identity.

(** A call made by an administrator, and one made by anybody else. *)
Definition admin_call (req : Request) (w : World) : Prop :=
  verifyAdmin req w = (Ok true, w).

Definition non_admin_call (req : Request) (w : World) : Prop :=
  fst (verifyAdmin req w) = Ok false.

(** The outcome [r] of an action run from [w] is a thrown error with the
    given message, and the store is as it was. *)
Definition fails_without_mutation {A} (message : string) (w : World)
    (r : Result A * World) : Prop :=
  fst r = Throw message /\ db (snd r) = db w.

Definition verificationStatus_of (id : string) (s : Store) : option string :=
  option_map user_verificationStatus (find_user id s).

Definition credits_of (id : string) (s : Store) : option Z :=
  option_map user_credits (find_user id s).

(** The store after the three writes of an approval: payout [pid] marked
    PROCESSED at [at_] by [by_], [amount] credits taken from [owner], and
    one ledger row for it. *)
Definition approval_applied (pid by_ owner : string) (amount at_ : Z)
    (s : Store) : Store :=
  mkStore
    (map (fun u => if (user_id u =? owner)%string
                   then decrement_credits amount u else u) (users s))
    (map (fun p => if (payout_id p =? pid)%string
                   then mark_processed "PROCESSED" at_ by_ p else p) (payouts s))
    (creditTransactions s
       ++ [mkCreditTransaction owner (- amount) "ADMIN_ADJUSTMENT"]).

(** No payout with id [pid] is waiting for approval in [s]. *)
Definition not_processing (pid : string) (s : Store) : Prop :=
  forall p, In p (payouts s) -> payout_id p = pid ->
            payout_status p <> "PROCESSING".

(** Computations that throw from every world, that never change the store,
    and that leave the store as it was whenever they throw. *)
Definition always_throws {A} (m : M A) : Prop :=
  forall w, exists e w', m w = (Throw e, w').

Definition always_returns {A} (m : M A) : Prop :=
  forall w, exists a w', m w = (Ok a, w').

Definition keeps_store {A} (m : M A) : Prop :=
  forall w r w', m w = (r, w') -> db w' = db w.

Definition keeps_store_on_throw {A} (m : M A) : Prop :=
  forall w e w', m w = (Throw e, w') -> db w' = db w.

(** Computations that leave a component [f] of the world (the store, the
    invalidated paths) as it was: whatever they do, and whenever they
    throw. *)
Definition preserves {A B} (f : World -> B) (m : M A) : Prop :=
  forall w r w', m w = (r, w') -> f w' = f w.

Definition preserves_on_throw {A B} (f : World -> B) (m : M A) : Prop :=
  forall w e w', m w = (Throw e, w') -> f w' = f w.

(** Computations whose thrown errors all have a message in [P]. *)
Definition throws_only {A} (P : string -> Prop) (m : M A) : Prop :=
  forall w e w', m w = (Throw e, w') -> P e.

(** A component of the world that does not depend on the console. *)
Definition ignores_console {B} (f : World -> B) : Prop :=
  forall d r c c', f (mkWorld d r c) = f (mkWorld d r c').

(** A list in the order [leb]: each element is before its successor. *)
Definition in_order {A} (leb : A -> A -> bool) (l : list A) : Prop :=
  Sorted (fun a b => leb a b = true) l.

(** What a status update may not touch in a user row. *)
Definition same_account (u u' : User) : Prop :=
  user_id u' = user_id u /\
  user_clerkUserId u' = user_clerkUserId u /\
  user_role u' = user_role u /\
  user_credits u' = user_credits u /\
  user_name u' = user_name u /\
  user_email u' = user_email u /\
  user_specialty u' = user_specialty u /\
  user_createdAt u' = user_createdAt u.

(** Every action starts with the same gate (lines 35-36, 59-60, 84-85,
    116-117, 150-151 and 185-186). *)
Definition gated {A} (req : Request) (k : M A) : M A :=
  isAdmin <- verifyAdmin req ;;
  if negb isAdmin then throw "Unauthorized" else k.

(* ================================================================== *)
(** ** Auxiliary facts *)

Lemma set_db_same (w : World) : set_db w (db w) = w.
Proof. destruct w; reflexivity. Qed.

Lemma find_map_preserved {A} (P : A -> bool) (g : A -> A) (l : list A) :
  (forall x, P (g x) = P x) ->
  find P (map g l) = option_map g (find P l).
Proof.
  intros Hg. induction l as [|x l IH]; simpl; [reflexivity|].
  rewrite Hg. destruct (P x); [reflexivity | exact IH].
Qed.

(** A rejection of [auth()] at line 11, outside the [try] of lines 17-28,
    leaves [verifyAdmin] as it is. *)
Lemma verifyAdmin_rejected (req : Request) (w : World) (message : string) :
  auth_userId req = Throw message ->
  verifyAdmin req w = (Throw message, w).
Proof.
  intros H. unfold verifyAdmin, auth, bind, lift. rewrite H. reflexivity.
Qed.

Lemma verifyAdmin_char (req : Request) (w : World) :
  identity_resolves req ->
  exists b w',
    verifyAdmin req w = (Ok b, w') /\
    db w' = db w /\ revalidated w' = revalidated w /\
    (b = true -> w' = w) /\
    (b = true <-> resolves_to_admin req (db w)).
Proof.
  intros (identity & Hauth).
  unfold verifyAdmin, auth, resolves_to_admin.
  unfold bind at 1. unfold lift. rewrite Hauth.
  destruct identity as [uid|]; simpl.
  2:{ exists false, w. repeat split; try discriminate.
      intros (uid & u & H & _). discriminate. }
  destruct (uid =? "")%string eqn:Huid; simpl.
  { apply String.eqb_eq in Huid. exists false, w.
    repeat split; try discriminate.
    intros (uid' & u & H & Hne & _). congruence. }
  apply String.eqb_neq in Huid.
  unfold try_catch, bind, db_call, user_findUnique, reading, ret, console_error.
  destruct (dbError req VerifyAdmin_findUnique) as [msg|] eqn:Herr; simpl.
  { eexists false, _. repeat split; try discriminate.
    intros (uid' & u & _ & _ & H & _). discriminate. }
  rewrite set_db_same.
  fold (by_clerkUserId uid).
  destruct (find (by_clerkUserId uid) (users (db w))) as [u|] eqn:Hfind; simpl.
  - destruct (user_role u =? "ADMIN")%string eqn:Hrole.
    + apply String.eqb_eq in Hrole. exists true, w.
      repeat split; auto. intros _. exists uid, u. auto.
    + apply String.eqb_neq in Hrole. exists false, w.
      repeat split; try discriminate.
      intros (uid' & u' & H1 & _ & _ & H2 & H3).
      inversion H1; subst uid'. rewrite Hfind in H2. inversion H2; subst u'.
      contradiction.
  - exists false, w. repeat split; try discriminate.
    intros (uid' & u' & H1 & _ & _ & H2 & _).
    inversion H1; subst uid'. rewrite Hfind in H2. discriminate.
Qed.

Lemma verifyAdmin_cases (req : Request) (w : World) :
  (exists message,
     auth_userId req = Throw message /\
     verifyAdmin req w = (Throw message, w)) \/
  (identity_resolves req /\
   exists b w',
     verifyAdmin req w = (Ok b, w') /\
     db w' = db w /\ revalidated w' = revalidated w /\
     (b = true -> w' = w) /\
     (b = true <-> resolves_to_admin req (db w))).
Proof.
  destruct (auth_userId req) as [identity|message] eqn:Hauth.
  - right. assert (Hres : identity_resolves req) by (exists identity; exact Hauth).
    split; [exact Hres | apply verifyAdmin_char, Hres].
  - left. exists message. split; [reflexivity|].
    apply verifyAdmin_rejected, Hauth.
Qed.

Lemma resolves_to_admin_identity (req : Request) (s : Store) :
  resolves_to_admin req s -> identity_resolves req.
Proof. intros (uid & u & H & _). exists (Some uid). exact H. Qed.

Lemma admin_call_resolves (req : Request) (w : World) :
  admin_call req w <-> resolves_to_admin req (db w).
Proof.
  unfold admin_call.
  destruct (verifyAdmin_cases req w)
    as [(m & Ha & Hv) | (_ & b & w' & Hv & _ & _ & Hw & Hb)]; rewrite Hv.
  - split; [discriminate|].
    intros (uid & u & H & _). rewrite Ha in H. discriminate.
  - split.
    + intros H. inversion H; subst. apply Hb. reflexivity.
    + intros H. apply Hb in H. subst b. rewrite (Hw eq_refl). reflexivity.
Qed.

Lemma non_admin_call_inv (req : Request) (w : World) :
  non_admin_call req w ->
  exists w', verifyAdmin req w = (Ok false, w') /\
             db w' = db w /\ revalidated w' = revalidated w.
Proof.
  unfold non_admin_call.
  destruct (verifyAdmin_cases req w)
    as [(m & _ & Hv) | (_ & b & w' & Hv & Hdb & Hrev & _)]; rewrite Hv; simpl.
  - discriminate.
  - intros H. inversion H; subst b. eauto.
Qed.

Lemma gated_admin {A} (req : Request) (k : M A) (w : World) :
  admin_call req w -> gated req k w = k w.
Proof. unfold admin_call, gated, bind. intros ->. reflexivity. Qed.

Lemma gated_non_admin {A} (req : Request) (k : M A) (w : World) :
  non_admin_call req w ->
  fst (gated req k w) = Throw "Unauthorized" /\
  db (snd (gated req k w)) = db w /\
  revalidated (snd (gated req k w)) = revalidated w.
Proof.
  intros H. destruct (non_admin_call_inv req w H) as (w' & Hv & Hdb & Hrev).
  unfold gated, bind. rewrite Hv. simpl. auto.
Qed.

Lemma resolves_gated {A} (req : Request) (k : M A) (w : World) :
  resolves_to_admin req (db w) -> gated req k w = k w.
Proof. intros H. apply gated_admin, admin_call_resolves, H. Qed.

Lemma not_resolves_gated {A} (req : Request) (k : M A) (w : World) :
  identity_resolves req ->
  ~ resolves_to_admin req (db w) ->
  fails_without_mutation "Unauthorized" w (gated req k w).
Proof.
  intros Hres H. unfold fails_without_mutation.
  destruct (gated_non_admin req k w) as (H1 & H2 & _); [|auto].
  unfold non_admin_call.
  destruct (verifyAdmin_char req w Hres) as (b & w' & Hv & _ & _ & _ & Hb).
  rewrite Hv. simpl. destruct b; [|reflexivity].
  exfalso. apply H, Hb. reflexivity.
Qed.

(** A rejection of [auth()] leaves every gated action as it is: the call of
    [verifyAdmin] that opens each of them is outside their [try]. *)
Lemma rejected_gated {A} (req : Request) (k : M A) (w : World) (message : string) :
  auth_userId req = Throw message ->
  gated req k w = (Throw message, w).
Proof.
  intros H. unfold gated, bind. rewrite (verifyAdmin_rejected req w message H).
  reflexivity.
Qed.

Lemma find_user_update_users (id : string) (f : User -> User) (s : Store) :
  (forall u, user_id (f u) = user_id u) ->
  find_user id (update_users id f s) = option_map f (find_user id s).
Proof.
  intros Hf. unfold find_user, update_users. simpl.
  induction (users s) as [|x l IH]; simpl; [reflexivity|].
  destruct (user_id x =? id)%string eqn:Hx.
  - rewrite Hf, Hx. reflexivity.
  - rewrite Hx. exact IH.
Qed.

Lemma resolves_to_admin_update_users (req : Request) (id st : string) (s : Store) :
  resolves_to_admin req s ->
  resolves_to_admin req (update_users id (set_verificationStatus st) s).
Proof.
  intros (uid & u & Ha & Hne & He & Hf & Hr).
  set (g := fun u => if (user_id u =? id)%string
                     then set_verificationStatus st u else u).
  exists uid, (g u). repeat split; auto.
  - unfold update_users. simpl. fold g.
    rewrite find_map_preserved, Hf; [reflexivity|].
    intros x. unfold g, by_clerkUserId.
    destruct (user_id x =? id)%string; reflexivity.
  - unfold g. destruct (user_id u =? id)%string; simpl; exact Hr.
Qed.

Lemma truthy_JStr (s : string) : s <> "" -> truthy (JStr s) = true.
Proof. intros H. simpl. apply String.eqb_neq in H. rewrite H. reflexivity. Qed.

(** The write of lines 95-102 and 129-136 on an existing provider. *)
Lemma user_update_status_run (req : Request) (c : DbCall) (id st : string)
    (u : User) (w : World) :
  dbError req c = None ->
  find_user id (db w) = Some u ->
  db_call req c (user_update_status (JStr id) (JStr st)) w
  = (Ok tt, set_db w (update_users id (set_verificationStatus st) (db w))).
Proof.
  intros He Hf. unfold db_call, user_update_status. rewrite He, Hf. reflexivity.
Qed.

Lemma verificationStatus_of_update (id st : string) (u : User) (s : Store) :
  find_user id s = Some u ->
  verificationStatus_of id (update_users id (set_verificationStatus st) s) = Some st.
Proof.
  intros Hf. unfold verificationStatus_of.
  rewrite find_user_update_users by reflexivity. rewrite Hf. reflexivity.
Qed.

(** What [updateLawyerActiveStatus] does for an administrator on an existing
    provider when the store answers. *)
Lemma updateLawyerActiveStatus_run (req : Request) (formData : FormData)
    (id : string) (u : User) (w : World) :
  resolves_to_admin req (db w) ->
  dbError req ActiveStatus_update = None ->
  formData_get formData "lawyerId" = JStr id -> id <> "" ->
  find_user id (db w) = Some u ->
  let st := if strict_eq_str (formData_get formData "suspend") "true"
            then "PENDING" else "VERIFIED" in
  updateLawyerActiveStatus req formData w
  = (Ok success,
     mkWorld (update_users id (set_verificationStatus st) (db w))
             (revalidated w ++ ["/admin"]) (console w)).
Proof.
  intros Hadm He Hid Hne Hf st.
  unfold updateLawyerActiveStatus.
  match goal with |- bind _ ?f _ = _ =>
    change (bind (verifyAdmin req) f w) with (gated req (f true) w) end.
  rewrite resolves_gated by assumption. cbv beta.
  rewrite Hid, (truthy_JStr id Hne).
  unfold try_catch, bind. cbn [negb]. cbv beta iota zeta.
  rewrite (user_update_status_run req _ id _ u w He Hf).
  reflexivity.
Qed.

Lemma strict_eq_str_true (v : JsValue) (lit : string) :
  strict_eq_str v lit = true <-> v = JStr lit.
Proof.
  split.
  - destruct v; simpl; try discriminate.
    intros H. apply String.eqb_eq in H. subst. reflexivity.
  - intros ->. simpl. apply String.eqb_refl.
Qed.

Lemma strict_eq_str_false (v : JsValue) (lit : string) :
  v <> JStr lit -> strict_eq_str v lit = false.
Proof.
  intros H. destruct (strict_eq_str v lit) eqn:E; [|reflexivity].
  apply strict_eq_str_true in E. contradiction.
Qed.

Lemma not_resolves_of_verifyAdmin (req : Request) (w : World) :
  fst (verifyAdmin req w) = Ok false -> ~ resolves_to_admin req (db w).
Proof.
  intros H Hr. apply admin_call_resolves in Hr. unfold admin_call in Hr.
  rewrite Hr in H. discriminate.
Qed.

(** What [updateLawyerStatus] does for an administrator once its two inputs
    passed the check of line 90, on an existing provider when the store
    answers. *)
Lemma updateLawyerStatus_run (req : Request) (formData : FormData)
    (id st : string) (u : User) (w : World) :
  resolves_to_admin req (db w) ->
  dbError req LawyerStatus_update = None ->
  formData_get formData "lawyerId" = JStr id -> id <> "" ->
  formData_get formData "status" = JStr st ->
  st = "VERIFIED" \/ st = "REJECTED" ->
  find_user id (db w) = Some u ->
  updateLawyerStatus req formData w
  = (Ok success,
     mkWorld (update_users id (set_verificationStatus st) (db w))
             (revalidated w ++ ["/admin"]) (console w)).
Proof.
  intros Hadm He Hid Hne Hst Hin Hf.
  unfold updateLawyerStatus.
  match goal with |- bind _ ?f _ = _ =>
    change (bind (verifyAdmin req) f w) with (gated req (f true) w) end.
  rewrite resolves_gated by assumption. cbv beta.
  rewrite Hid, Hst, (truthy_JStr id Hne).
  assert (Hinc : includes ["VERIFIED"; "REJECTED"] (JStr st) = true)
    by (destruct Hin; subst st; reflexivity).
  rewrite Hinc.
  unfold try_catch, bind. cbn [negb orb]. cbv beta iota zeta.
  rewrite (user_update_status_run req _ id _ u w He Hf).
  reflexivity.
Qed.

Lemma updateLawyerStatus_invalid (req : Request) (formData : FormData) (w : World) :
  resolves_to_admin req (db w) ->
  truthy (formData_get formData "lawyerId") = false \/
  includes ["VERIFIED"; "REJECTED"] (formData_get formData "status") = false ->
  updateLawyerStatus req formData w = (Throw "Invalid input", w).
Proof.
  intros Hadm Hbad.
  unfold updateLawyerStatus.
  match goal with |- bind _ ?f _ = _ =>
    change (bind (verifyAdmin req) f w) with (gated req (f true) w) end.
  rewrite resolves_gated by assumption. cbv beta. cbn [negb]. cbv iota.
  destruct Hbad as [H|H]; rewrite H; cbn [negb orb].
  - reflexivity.
  - rewrite orb_true_r. reflexivity.
Qed.

(* ================================================================== *)
(** ** The privilege check and the gate *)

(** C5 (amended).  [verifyAdmin] raises only when the identity call
    [auth()] of line 11 itself rejects, which is outside the [try] of lines
    17-28: it then throws that very error and touches nothing.  Whenever
    [auth()] resolves it does not raise: it returns [true] exactly when the
    caller has an identity that the store resolves to a user record whose
    role is ADMIN; it returns [false] without an identity, without a record
    for it, and whenever the lookup fails. *)
Theorem verifyAdmin_raises_only_on_rejected_identity (req : Request) (w : World) :
  (forall message,
     auth_userId req = Throw message ->
     verifyAdmin req w = (Throw message, w)) /\
  (identity_resolves req ->
   exists b w',
     verifyAdmin req w = (Ok b, w') /\
     db w' = db w /\
     (b = true <-> resolves_to_admin req (db w)) /\
     (auth_userId req = Ok None -> b = false) /\
     (forall uid, auth_userId req = Ok (Some uid) ->
        find (by_clerkUserId uid) (users (db w)) = None -> b = false) /\
     (forall message,
        dbError req VerifyAdmin_findUnique = Some message -> b = false)).
Proof.
  split; [intros message; apply verifyAdmin_rejected|].
  intros Hres.
  destruct (verifyAdmin_char req w Hres) as (b & w' & Hv & Hdb & _ & _ & Hb).
  exists b, w'. repeat split; try assumption; try apply Hb.
  - intros Hnone. destruct b; [|reflexivity].
    destruct (proj1 Hb eq_refl) as (uid & u & H & _). congruence.
  - intros uid Hsome Hfind. destruct b; [|reflexivity].
    destruct (proj1 Hb eq_refl) as (uid' & u & H1 & _ & _ & H2 & _).
    congruence.
  - intros message Herr. destruct b; [|reflexivity].
    destruct (proj1 Hb eq_refl) as (uid & u & _ & _ & H & _). congruence.
Qed.

(** C6.  For a caller who is not an administrator (the identity call
    resolves, to a user or to nobody, and does not resolve to an
    administrator), each of the six gated actions throws "Unauthorized" and
    leaves the store as it was. *)
Theorem non_admin_unauthorized (ownerKey : string)
    (nameLeb : string -> string -> bool)
    (req : Request) (formData : FormData) (w : World) :
  identity_resolves req ->
  ~ resolves_to_admin req (db w) ->
  fails_without_mutation "Unauthorized" w (getPendingDoctors req w) /\
  fails_without_mutation "Unauthorized" w (getVerifiedLawyers nameLeb req w) /\
  fails_without_mutation "Unauthorized" w (updateLawyerStatus req formData w) /\
  fails_without_mutation "Unauthorized" w (updateLawyerActiveStatus req formData w) /\
  fails_without_mutation "Unauthorized" w (getPendingPayouts ownerKey req w) /\
  fails_without_mutation "Unauthorized" w (approvePayout ownerKey req formData w).
Proof.
  intros Hres H. repeat split;
    try (apply (not_resolves_gated req _ w Hres H)).
Qed.

(* ================================================================== *)
(** ** Verification status updates *)

(** C8.  For an administrator, [updateLawyerStatus] throws "Invalid input"
    and leaves the whole world untouched when [lawyerId] is missing or when
    [status] is neither VERIFIED nor REJECTED; with a present [lawyerId]
    naming a provider and one of the two statuses, it writes that status to
    the provider and returns [{ success: true }]. *)
Theorem updateLawyerStatus_validates (req : Request) (w : World) :
  resolves_to_admin req (db w) ->
  (forall formData,
     (formData_get formData "lawyerId" = JNull \/
      formData_get formData "lawyerId" = JStr "") \/
     (formData_get formData "status" <> JStr "VERIFIED" /\
      formData_get formData "status" <> JStr "REJECTED") ->
     updateLawyerStatus req formData w = (Throw "Invalid input", w)) /\
  (forall formData id st u,
     formData_get formData "lawyerId" = JStr id -> id <> "" ->
     formData_get formData "status" = JStr st ->
     st = "VERIFIED" \/ st = "REJECTED" ->
     find_user id (db w) = Some u ->
     dbError req LawyerStatus_update = None ->
     exists w',
       updateLawyerStatus req formData w = (Ok success, w') /\
       verificationStatus_of id (db w') = Some st /\
       db w' = update_users id (set_verificationStatus st) (db w)).
Proof.
  intros Hadm. split.
  - intros formData Hbad. apply updateLawyerStatus_invalid; [assumption|].
    destruct Hbad as [[H|H]|[H1 H2]].
    + left. rewrite H. reflexivity.
    + left. rewrite H. reflexivity.
    + right. unfold includes. simpl.
      rewrite (strict_eq_str_false _ _ H1), (strict_eq_str_false _ _ H2).
      reflexivity.
  - intros formData id st u Hid Hne Hst Hin Hf He.
    eexists. split; [|split].
    + apply (updateLawyerStatus_run req formData id st u w); assumption.
    + simpl. apply (verificationStatus_of_update id st u), Hf.
    + reflexivity.
Qed.

(** C7.  For an administrator and an existing provider,
    [updateLawyerActiveStatus] with [suspend] "true" sets the provider's
    verification status to PENDING and with [suspend] "false" sets it to
    VERIFIED; suspending and then un-suspending leaves it VERIFIED. *)
Theorem updateLawyerActiveStatus_round_trip (req1 req2 : Request)
    (suspendForm resumeForm : FormData) (id : string) (u : User) (w : World) :
  resolves_to_admin req1 (db w) ->
  resolves_to_admin req2 (db w) ->
  dbError req1 ActiveStatus_update = None ->
  dbError req2 ActiveStatus_update = None ->
  formData_get suspendForm "lawyerId" = JStr id ->
  formData_get suspendForm "suspend" = JStr "true" ->
  formData_get resumeForm "lawyerId" = JStr id ->
  formData_get resumeForm "suspend" = JStr "false" ->
  id <> "" ->
  find_user id (db w) = Some u ->
  (exists w1 w2,
     updateLawyerActiveStatus req1 suspendForm w = (Ok success, w1) /\
     verificationStatus_of id (db w1) = Some "PENDING" /\
     updateLawyerActiveStatus req2 resumeForm w1 = (Ok success, w2) /\
     verificationStatus_of id (db w2) = Some "VERIFIED") /\
  (exists w2,
     updateLawyerActiveStatus req2 resumeForm w = (Ok success, w2) /\
     verificationStatus_of id (db w2) = Some "VERIFIED").
Proof.
  intros Ha1 Ha2 He1 He2 Hid1 Hs1 Hid2 Hs2 Hne Hf.
  pose proof (updateLawyerActiveStatus_run req1 suspendForm id u w
                Ha1 He1 Hid1 Hne Hf) as R1.
  rewrite Hs1 in R1. simpl in R1.
  split.
  - set (w1 := mkWorld (update_users id (set_verificationStatus "PENDING") (db w))
                       (revalidated w ++ ["/admin"]) (console w)) in *.
    assert (Hf1 : find_user id (db w1) = Some (set_verificationStatus "PENDING" u)).
    { simpl. rewrite find_user_update_users by reflexivity.
      rewrite Hf. reflexivity. }
    assert (Ha21 : resolves_to_admin req2 (db w1))
      by (simpl; apply resolves_to_admin_update_users, Ha2).
    pose proof (updateLawyerActiveStatus_run req2 resumeForm id _ w1
                  Ha21 He2 Hid2 Hne Hf1) as R2.
    rewrite Hs2 in R2. simpl in R2.
    eexists w1, _. split; [exact R1|]. split; [|split; [exact R2|]].
    + simpl. apply (verificationStatus_of_update id "PENDING" u), Hf.
    + simpl. eapply verificationStatus_of_update.
      rewrite find_user_update_users by reflexivity. rewrite Hf. reflexivity.
  - pose proof (updateLawyerActiveStatus_run req2 resumeForm id u w
                  Ha2 He2 Hid2 Hne Hf) as R2.
    rewrite Hs2 in R2. simpl in R2.
    eexists. split; [exact R2|].
    simpl. apply (verificationStatus_of_update id "VERIFIED" u), Hf.
Qed.

(** C10.  For an administrator and an existing provider, whenever the
    [suspend] field is anything but the string "true" (absent, a file, or
    any other string), [updateLawyerActiveStatus] succeeds and sets the
    provider's verification status to VERIFIED. *)
Theorem updateLawyerActiveStatus_defaults_to_verified (req : Request)
    (formData : FormData) (id : string) (u : User) (w : World) :
  resolves_to_admin req (db w) ->
  dbError req ActiveStatus_update = None ->
  formData_get formData "lawyerId" = JStr id -> id <> "" ->
  find_user id (db w) = Some u ->
  formData_get formData "suspend" <> JStr "true" ->
  exists w',
    updateLawyerActiveStatus req formData w = (Ok success, w') /\
    verificationStatus_of id (db w') = Some "VERIFIED" /\
    db w' = update_users id (set_verificationStatus "VERIFIED") (db w).
Proof.
  intros Hadm He Hid Hne Hf Hs.
  pose proof (updateLawyerActiveStatus_run req formData id u w
                Hadm He Hid Hne Hf) as R.
  rewrite (strict_eq_str_false _ _ Hs) in R. simpl in R.
  eexists. split; [exact R|]. split; [|reflexivity].
  simpl. apply (verificationStatus_of_update id "VERIFIED" u), Hf.
Qed.

(* ================================================================== *)
(** ** Listings *)

Lemma insert_by_perm {A} (leb : A -> A -> bool) (x : A) (l : list A) :
  Permutation (insert_by leb x l) (x :: l).
Proof.
  induction l as [|y l IH]; simpl; [reflexivity|].
  destruct (leb x y); [reflexivity|].
  rewrite IH. apply perm_swap.
Qed.

Lemma orderBy_perm {A} (leb : A -> A -> bool) (l : list A) :
  Permutation (orderBy leb l) l.
Proof.
  induction l as [|x l IH]; simpl; [reflexivity|].
  unfold orderBy in *. simpl. rewrite insert_by_perm. constructor. exact IH.
Qed.

Lemma user_findMany_run (req : Request) (c : DbCall) (role status : string)
    (leb : User -> User -> bool) (w : World) :
  dbError req c = None ->
  db_call req c (user_findMany role status leb) w
  = (Ok (JArr (map user_obj (orderBy leb (matching_users role status (db w))))), w).
Proof.
  intros He. unfold db_call, user_findMany, reading. rewrite He, set_db_same.
  reflexivity.
Qed.

(** What the two listings do for an administrator, when the store answers
    the listing query and when it fails on it. *)
Lemma listings_on_query_failure (nameLeb : string -> string -> bool)
    (req : Request) (w : World) :
  resolves_to_admin req (db w) ->
  (dbError req PendingDoctors_findMany = None ->
   exists l,
     getPendingDoctors req w = (Ok (JObj [("doctors", JArr (map user_obj l))]), w) /\
     Permutation l
       (filter (fun u => (user_role u =? "LAWYER")%string
                         && (user_verificationStatus u =? "PENDING")%string)
               (users (db w)))) /\
  (dbError req VerifiedLawyers_findMany = None ->
   exists l,
     getVerifiedLawyers nameLeb req w
     = (Ok (JObj [("lawyers", JArr (map user_obj l))]), w) /\
     Permutation l
       (filter (fun u => (user_role u =? "LAWYER")%string
                         && (user_verificationStatus u =? "VERIFIED")%string)
               (users (db w)))) /\
  (forall message,
     dbError req PendingDoctors_findMany = Some message ->
     getPendingDoctors req w = (Throw "Failed to fetch pending lawyers", w)) /\
  (forall message,
     dbError req VerifiedLawyers_findMany = Some message ->
     exists w',
       getVerifiedLawyers nameLeb req w
       = (Ok (JObj [("error", JStr "Failed to fetch verified lawyers")]), w') /\
       db w' = db w).
Proof.
  intros Hadm. repeat split.
  - intros He. eexists. split; [|apply orderBy_perm].
    unfold getPendingDoctors.
    match goal with |- bind _ ?f _ = _ =>
      change (bind (verifyAdmin req) f w) with (gated req (f true) w) end.
    rewrite resolves_gated by assumption. cbn [negb]. cbv beta iota.
    unfold try_catch, bind. rewrite user_findMany_run by assumption.
    reflexivity.
  - intros He. eexists. split; [|apply orderBy_perm].
    unfold getVerifiedLawyers.
    match goal with |- bind _ ?f _ = _ =>
      change (bind (verifyAdmin req) f w) with (gated req (f true) w) end.
    rewrite resolves_gated by assumption. cbn [negb]. cbv beta iota.
    unfold try_catch, bind. rewrite user_findMany_run by assumption.
    reflexivity.
  - intros message He.
    unfold getPendingDoctors.
    match goal with |- bind _ ?f _ = _ =>
      change (bind (verifyAdmin req) f w) with (gated req (f true) w) end.
    rewrite resolves_gated by assumption. cbn [negb]. cbv beta iota.
    unfold try_catch, bind, db_call. rewrite He. reflexivity.
  - intros message He.
    unfold getVerifiedLawyers.
    match goal with |- context [bind _ ?f w] =>
      change (bind (verifyAdmin req) f w) with (gated req (f true) w) end.
    rewrite resolves_gated by assumption. cbn [negb]. cbv beta iota.
    unfold try_catch, bind, db_call. rewrite He.
    eexists. split; reflexivity.
Qed.

(** C9 (amended).  For an administrator, both listings return all the
    providers that match (role LAWYER and the status asked for; possibly
    none) when the store answers the listing query.  When the store fails on
    the listing query, whatever the failure, [getPendingDoctors] throws the
    generic "Failed to fetch pending lawyers", whereas [getVerifiedLawyers]
    returns normally, with the value
    [{ error: "Failed to fetch verified lawyers" }].  When the store fails
    on the privilege lookup instead, the two do not differ: both throw
    "Unauthorized". *)
Theorem listings_differ_on_store_failure (nameLeb : string -> string -> bool)
    (req : Request) (w : World) :
  (resolves_to_admin req (db w) ->
    (dbError req PendingDoctors_findMany = None ->
     exists l,
       getPendingDoctors req w = (Ok (JObj [("doctors", JArr (map user_obj l))]), w) /\
       Permutation l
         (filter (fun u => (user_role u =? "LAWYER")%string
                           && (user_verificationStatus u =? "PENDING")%string)
                 (users (db w)))) /\
    (dbError req VerifiedLawyers_findMany = None ->
     exists l,
       getVerifiedLawyers nameLeb req w
       = (Ok (JObj [("lawyers", JArr (map user_obj l))]), w) /\
       Permutation l
         (filter (fun u => (user_role u =? "LAWYER")%string
                           && (user_verificationStatus u =? "VERIFIED")%string)
                 (users (db w)))) /\
    (forall message,
       dbError req PendingDoctors_findMany = Some message ->
       getPendingDoctors req w = (Throw "Failed to fetch pending lawyers", w)) /\
    (forall message,
       dbError req VerifiedLawyers_findMany = Some message ->
       exists w',
         getVerifiedLawyers nameLeb req w
         = (Ok (JObj [("error", JStr "Failed to fetch verified lawyers")]), w') /\
         db w' = db w)) /\
  (identity_resolves req ->
   forall message,
     dbError req VerifyAdmin_findUnique = Some message ->
     fails_without_mutation "Unauthorized" w (getPendingDoctors req w) /\
     fails_without_mutation "Unauthorized" w (getVerifiedLawyers nameLeb req w)).
Proof.
  split.
  - apply listings_on_query_failure.
  - intros Hres message He.
    assert (Hno : ~ resolves_to_admin req (db w)).
    { intros (uid & u & _ & _ & H & _). congruence. }
    split; apply (not_resolves_gated req _ w Hres Hno).
Qed.

(* ================================================================== *)
(** ** Payout approval *)

(** What [approvePayout] has done, for an administrator and a present
    [payoutId], when it reaches the test of line 212: the two reads of lines
    196-210, which leave the world as it was. *)
Lemma approvePayout_reads (ownerKey : string) (req : Request)
    (formData : FormData) (pid : string) (w : World) :
  resolves_to_admin req (db w) ->
  dbError req Approve_findAdmin = None ->
  dbError req Approve_findPayout = None ->
  formData_get formData "payoutId" = JStr pid -> pid <> "" ->
  exists admin,
    approvePayout ownerKey req formData w
    = try_catch
        (let payout := nullable (payout_obj ownerKey user_obj (db w))
                                (find_payout pid "PROCESSING" (db w)) in
         if negb (truthy payout)
         then throw "Payout request not found or already processed"
         else
           doctor <- lift (get_prop payout "doctor") ;;
           doctorCredits <- lift (get_prop doctor "credits") ;;
           payoutCredits <- lift (get_prop payout "credits") ;;
           if js_lt doctorCredits payoutCredits
           then throw "lawyer doesn't have enough credits for this payout"
           else
             approveTransaction req (JStr pid) admin payout ;;;
             revalidatePath "/admin" ;;;
             ret success)
        (fun error =>
           console_error "Failed to approve payout:" error ;;;
           throw ("Failed to approve payout: " ++ error)) w.
Proof.
  intros Hadm He1 He2 Hid Hne.
  destruct Hadm as (uid & a & Hauth & Huid & Hadm).
  assert (Hadm' : resolves_to_admin req (db w)) by (exists uid, a; auto).
  eexists.
  unfold approvePayout.
  match goal with |- bind _ ?f _ = _ =>
    change (bind (verifyAdmin req) f w) with (gated req (f true) w) end.
  rewrite resolves_gated by assumption. cbn [negb]. cbv beta iota.
  rewrite Hid, (truthy_JStr pid Hne). cbn [negb]. cbv beta iota zeta.
  unfold try_catch, bind, db_call, auth, lift.
  rewrite He1, He2, Hauth.
  cbn [nullable user_findUnique payout_findUnique reading].
  rewrite !set_db_same.
  reflexivity.
Qed.

Lemma always_throws_bind_l {A B} (m : M A) (k : A -> M B) :
  always_throws m -> always_throws (bind m k).
Proof.
  intros H w. destruct (H w) as (e & w' & Hm).
  exists e, w'. unfold bind. rewrite Hm. reflexivity.
Qed.

Lemma always_throws_bind_r {A B} (m : M A) (k : A -> M B) :
  (forall a, always_throws (k a)) -> always_throws (bind m k).
Proof.
  intros H w. unfold bind. destruct (m w) as [[a|e] w1].
  - apply H.
  - exists e, w1. reflexivity.
Qed.

Lemma always_throws_db_call {A} (req : Request) (c : DbCall)
    (q : Store -> Result A * Store) (message : string) :
  dbError req c = Some message -> always_throws (db_call req c q).
Proof.
  intros H w. exists message, w. unfold db_call. rewrite H. reflexivity.
Qed.

Lemma transaction_always_throws {A} (req : Request) (body : M A) (w : World) :
  always_throws body ->
  exists e w', transaction req body w = (Throw e, w') /\ db w' = db w.
Proof.
  intros H. destruct (H w) as (e & w' & Hb).
  unfold transaction. rewrite Hb. eexists _, _. split; reflexivity.
Qed.

Lemma keeps_store_on_throw_transaction {A} (req : Request) (body : M A) :
  keeps_store_on_throw (transaction req body).
Proof.
  intros w e w'. unfold transaction.
  destruct (body w) as [[a|e'] w1].
  - destruct (dbError req Tx_commit); intros H; inversion H; reflexivity.
  - intros H; inversion H; reflexivity.
Qed.

Lemma keeps_store_weaken {A} (m : M A) :
  keeps_store m -> keeps_store_on_throw m.
Proof. intros H w e w'. apply H. Qed.

Lemma keeps_store_bind {A B} (m : M A) (k : A -> M B) :
  keeps_store m -> (forall a, keeps_store (k a)) -> keeps_store (bind m k).
Proof.
  intros Hm Hk w r w'. unfold bind.
  destruct (m w) as [[a|e] w1] eqn:E; intros H.
  - rewrite (Hk a _ _ _ H). apply (Hm _ _ _ E).
  - inversion H; subst. apply (Hm _ _ _ E).
Qed.

Lemma keeps_store_on_throw_bind {A B} (m : M A) (k : A -> M B) :
  keeps_store m -> (forall a, keeps_store_on_throw (k a)) ->
  keeps_store_on_throw (bind m k).
Proof.
  intros Hm Hk w e w'. unfold bind.
  destruct (m w) as [[a|e'] w1] eqn:E; intros H.
  - rewrite (Hk a _ _ _ H). apply (Hm _ _ _ E).
  - inversion H; subst. apply (Hm _ _ _ E).
Qed.

Lemma keeps_store_on_throw_then_returns {A B} (m : M A) (k : A -> M B) :
  keeps_store_on_throw m -> (forall a, always_returns (k a)) ->
  keeps_store_on_throw (bind m k).
Proof.
  intros Hm Hk w e w'. unfold bind.
  destruct (m w) as [[a|e'] w1] eqn:E; intros H.
  - destruct (Hk a w1) as (b & w2 & Hb). rewrite Hb in H. discriminate.
  - inversion H; subst. apply (Hm _ _ _ E).
Qed.

Lemma keeps_store_on_throw_try_catch {A} (m : M A) (h : string -> M A) :
  keeps_store_on_throw m -> (forall e, keeps_store (h e)) ->
  keeps_store_on_throw (try_catch m h).
Proof.
  intros Hm Hh w e w'. unfold try_catch.
  destruct (m w) as [[a|e'] w1] eqn:E; intros H.
  - discriminate.
  - rewrite (Hh e' _ _ _ H). apply (Hm _ _ _ E).
Qed.

Lemma keeps_store_ret {A} (a : A) : keeps_store (ret a).
Proof. intros w r w' H. inversion H. reflexivity. Qed.

Lemma keeps_store_throw {A} (e : string) : keeps_store (@throw A e).
Proof. intros w r w' H. inversion H. reflexivity. Qed.

Lemma keeps_store_lift {A} (r : Result A) : keeps_store (lift r).
Proof. intros w r' w' H. inversion H. reflexivity. Qed.

Lemma keeps_store_console_error (label e : string) :
  keeps_store (console_error label e).
Proof. intros w r w' H. inversion H. reflexivity. Qed.

Lemma keeps_store_reading {A} (req : Request) (c : DbCall) (f : Store -> Result A) :
  keeps_store (db_call req c (reading f)).
Proof.
  intros w r w'. unfold db_call, reading.
  destruct (dbError req c); intros H; inversion H; reflexivity.
Qed.

Lemma keeps_store_verifyAdmin (req : Request) : keeps_store (verifyAdmin req).
Proof.
  intros w r w' H.
  destruct (verifyAdmin_cases req w)
    as [(m & _ & Hv) | (_ & b & w1 & Hv & Hdb & _)];
    rewrite Hv in H; inversion H; subst; [reflexivity | exact Hdb].
Qed.

Lemma keeps_store_on_throw_gated {A} (req : Request) (k : M A) :
  keeps_store_on_throw k -> keeps_store_on_throw (gated req k).
Proof.
  intros Hk. unfold gated.
  apply keeps_store_on_throw_bind; [apply keeps_store_verifyAdmin|].
  intros [|]; simpl; [exact Hk|].
  apply keeps_store_weaken, keeps_store_throw.
Qed.

Lemma always_returns_revalidate_success (u : unit) :
  always_returns (revalidatePath "/admin" ;;; ret success).
Proof. intros w. eexists _, _. reflexivity. Qed.

Create HintDb store_frame.

#[local] Hint Resolve keeps_store_ret keeps_store_throw keeps_store_lift
  keeps_store_console_error keeps_store_verifyAdmin keeps_store_weaken
  keeps_store_on_throw_transaction always_returns_revalidate_success
  : store_frame.

(** [approvePayout] never leaves the store changed when it throws. *)
Lemma approvePayout_keeps_store_on_throw (ownerKey : string) (req : Request)
    (formData : FormData) :
  keeps_store_on_throw (approvePayout ownerKey req formData).
Proof.
  unfold approvePayout.
  apply (keeps_store_on_throw_gated req).
  destruct (negb (truthy (formData_get formData "payoutId")));
    [auto with store_frame|].
  apply keeps_store_on_throw_try_catch.
  2:{ intros e. apply keeps_store_bind; auto with store_frame. }
  apply keeps_store_on_throw_bind.
  { unfold auth. auto with store_frame. }
  intros userId.
  apply keeps_store_on_throw_bind.
  { unfold user_findUnique. apply keeps_store_reading. }
  intros admin.
  apply keeps_store_on_throw_bind.
  { unfold payout_findUnique. apply keeps_store_reading. }
  intros payout.
  destruct (negb (truthy payout)); [auto with store_frame|].
  apply keeps_store_on_throw_bind; [auto with store_frame|]. intros doctor.
  apply keeps_store_on_throw_bind; [auto with store_frame|]. intros dc.
  apply keeps_store_on_throw_bind; [auto with store_frame|]. intros pc.
  destruct (js_lt dc pc); [auto with store_frame|].
  apply keeps_store_on_throw_then_returns; [|auto with store_frame].
  unfold approveTransaction. auto with store_frame.
Qed.

Lemma bind_ok_inv {A B} (m : M A) (k : A -> M B) (w w' : World) (b : B) :
  bind m k w = (Ok b, w') ->
  exists a w1, m w = (Ok a, w1) /\ k a w1 = (Ok b, w').
Proof.
  unfold bind. destruct (m w) as [[a|e] w1]; [eauto | discriminate].
Qed.

Lemma lift_ok_inv {A} (r : Result A) (w w' : World) (a : A) :
  lift r w = (Ok a, w') -> r = Ok a /\ w' = w.
Proof. unfold lift. intros H. inversion H. auto. Qed.

Lemma transaction_ok_inv {A} (req : Request) (body : M A) (w w' : World) (a : A) :
  transaction req body w = (Ok a, w') -> body w = (Ok a, w').
Proof.
  unfold transaction. destruct (body w) as [[a'|e] w1]; [|discriminate].
  destruct (dbError req Tx_commit); [discriminate|]. intros H. exact H.
Qed.

Lemma db_call_ok_inv {A} (req : Request) (c : DbCall)
    (q : Store -> Result A * Store) (w w' : World) (a : A) :
  db_call req c q w = (Ok a, w') ->
  exists s, q (db w) = (Ok a, s) /\ w' = set_db w s.
Proof.
  unfold db_call. destruct (dbError req c); [discriminate|].
  destruct (q (db w)) as [r s]. intros H. inversion H; subst. eauto.
Qed.

Lemma payout_update_ok_inv (id by_ : JsValue) (status : string) (at_ : Z)
    (s s' : Store) :
  payout_update id status at_ by_ s = (Ok tt, s') ->
  exists i b,
    id = JStr i /\ by_ = JStr b /\
    s' = mkStore (users s)
           (map (fun p => if (payout_id p =? i)%string
                          then mark_processed status at_ b p else p) (payouts s))
           (creditTransactions s).
Proof.
  unfold payout_update.
  destruct id; try discriminate. destruct by_; try discriminate.
  destruct (find _ _); [|discriminate].
  intros H. inversion H. eauto.
Qed.

Lemma user_update_decrement_ok_inv (id amount : JsValue) (s s' : Store) :
  user_update_decrement id amount s = (Ok tt, s') ->
  exists i n,
    id = JStr i /\ amount = JNum n /\ s' = update_users i (decrement_credits n) s.
Proof.
  unfold user_update_decrement.
  destruct id; try discriminate. destruct amount; try discriminate.
  destruct (find_user _ _); [|discriminate].
  intros H. inversion H. eauto.
Qed.

Lemma creditTransaction_create_ok_inv (userId amount : JsValue) (type : string)
    (s s' : Store) :
  creditTransaction_create userId amount type s = (Ok tt, s') ->
  exists u n,
    userId = JStr u /\ amount = JNum n /\
    s' = mkStore (users s) (payouts s)
           (creditTransactions s ++ [mkCreditTransaction u n type]).
Proof.
  unfold creditTransaction_create.
  destruct userId; try discriminate. destruct amount; try discriminate.
  destruct (find_user _ _); [|discriminate].
  intros H. inversion H. eauto.
Qed.

(** When the transaction of lines 222-255 commits, its three writes are all
    in the store. *)
Lemma approveTransaction_commits (req : Request) (payoutId admin payout : JsValue)
    (w w' : World) :
  approveTransaction req payoutId admin payout w = (Ok tt, w') ->
  exists pid by_ owner amount,
    payoutId = JStr pid /\
    js_or (get_prop_opt admin "id") (JStr "unknown") = JStr by_ /\
    get_prop payout "doctorId" = Ok (JStr owner) /\
    get_prop payout "credits" = Ok (JNum amount) /\
    db w' = approval_applied pid by_ owner amount (now req) (db w).
Proof.
  intros H. unfold approveTransaction in H.
  apply transaction_ok_inv in H.
  apply bind_ok_inv in H. destruct H as ([] & w1 & H1 & H).
  apply bind_ok_inv in H. destruct H as (doctorId & w2 & H2 & H).
  apply bind_ok_inv in H. destruct H as (credits & w3 & H3 & H).
  apply bind_ok_inv in H. destruct H as ([] & w4 & H4 & H).
  apply bind_ok_inv in H. destruct H as (doctorId' & w5 & H5 & H).
  apply bind_ok_inv in H. destruct H as (credits' & w6 & H6 & H).
  apply lift_ok_inv in H2, H3, H5, H6.
  destruct H2 as [G2 ->], H3 as [G3 ->], H5 as [G5 ->], H6 as [G6 ->].
  apply db_call_ok_inv in H1, H4, H.
  destruct H1 as (s1 & Q1 & ->), H4 as (s4 & Q4 & ->), H as (s7 & Q7 & ->).
  apply payout_update_ok_inv in Q1. destruct Q1 as (pid & by_ & -> & Hby & ->).
  apply user_update_decrement_ok_inv in Q4.
  destruct Q4 as (owner & amount & -> & -> & ->).
  apply creditTransaction_create_ok_inv in Q7.
  destruct Q7 as (owner' & namount & Ho & Hn & ->).
  subst doctorId'. rewrite G2 in G5. injection G5 as <-.
  rewrite G3 in G6. injection G6 as <-. simpl in Hn. injection Hn as <-.
  exists pid, by_, owner, amount. repeat split; assumption || reflexivity.
Qed.

(** When the store fails on the balance decrement or on the ledger insert,
    the transaction throws and the store is as it was before it. *)
Lemma approveTransaction_step_failure (req : Request)
    (payoutId admin payout : JsValue) (w : World) (message : string) :
  dbError req Tx_userUpdate = Some message \/
  dbError req Tx_creditTransactionCreate = Some message ->
  exists e w',
    approveTransaction req payoutId admin payout w = (Throw e, w') /\
    db w' = db w.
Proof.
  intros H. unfold approveTransaction.
  apply transaction_always_throws.
  apply always_throws_bind_r; intros _.
  apply always_throws_bind_r; intros doctorId.
  apply always_throws_bind_r; intros credits.
  destruct H as [H|H].
  - apply always_throws_bind_l.
    apply (always_throws_db_call _ _ _ message H).
  - apply always_throws_bind_r; intros _.
    apply always_throws_bind_r; intros doctorId'.
    apply always_throws_bind_r; intros credits'.
    apply (always_throws_db_call _ _ _ message H).
Qed.

Lemma find_payout_after_approval (pid by_ owner : string) (amount at_ : Z)
    (s : Store) :
  find_payout pid "PROCESSING" (approval_applied pid by_ owner amount at_ s) = None.
Proof.
  unfold find_payout, approval_applied. simpl.
  induction (payouts s) as [|p l IH]; simpl; [reflexivity|].
  destruct (payout_id p =? pid)%string eqn:E; simpl; rewrite E; simpl; exact IH.
Qed.

(** The three effects of an approval, read back from the store. *)
Lemma approval_applied_effects (pid by_ owner : string) (amount at_ : Z)
    (s : Store) (u : User) :
  find_user owner s = Some u ->
  let s' := approval_applied pid by_ owner amount at_ s in
  credits_of owner s' = Some (user_credits u - amount) /\
  creditTransactions s'
  = (creditTransactions s
     ++ [mkCreditTransaction owner (- amount) "ADMIN_ADJUSTMENT"])%list /\
  forall p, In p (payouts s') -> payout_id p = pid ->
            payout_status p = "PROCESSED".
Proof.
  intros Hf s'. split; [|split].
  - unfold credits_of.
    change (find_user owner s')
      with (find_user owner (update_users owner (decrement_credits amount) s)).
    rewrite find_user_update_users by reflexivity. rewrite Hf. reflexivity.
  - reflexivity.
  - intros p Hin Hid. unfold s', approval_applied in Hin. simpl in Hin.
    apply in_map_iff in Hin. destruct Hin as (q & Hq & _).
    destruct (payout_id q =? pid)%string eqn:E.
    + subst p. reflexivity.
    + subst p. apply String.eqb_neq in E. contradiction.
Qed.

Lemma find_payout_none (pid : string) (s : Store) :
  not_processing pid s ->
  find_payout pid "PROCESSING" s = None.
Proof.
  intros H. unfold find_payout.
  destruct (find _ (payouts s)) as [p|] eqn:E; [|reflexivity].
  apply find_some in E. destruct E as [Hin Hp].
  apply andb_prop in Hp. destruct Hp as [H1 H2].
  apply String.eqb_eq in H1, H2. exfalso. exact (H p Hin H1 H2).
Qed.

(** The outcome of [approvePayout] for an administrator when the lookup of
    lines 202-210 finds nothing. *)
Lemma approvePayout_not_found_run (ownerKey : string) (req : Request)
    (formData : FormData) (pid : string) (w : World) :
  resolves_to_admin req (db w) ->
  dbError req Approve_findAdmin = None ->
  dbError req Approve_findPayout = None ->
  formData_get formData "payoutId" = JStr pid -> pid <> "" ->
  find_payout pid "PROCESSING" (db w) = None ->
  fails_without_mutation
    "Failed to approve payout: Payout request not found or already processed"
    w (approvePayout ownerKey req formData w).
Proof.
  intros Hadm He1 He2 Hid Hne Hnone.
  destruct (approvePayout_reads ownerKey req formData pid w
              Hadm He1 He2 Hid Hne) as (admin & ->).
  rewrite Hnone. split; reflexivity.
Qed.

Lemma payout_obj_doctor (ownerKey : string) (s : Store) (p : Payout) :
  ownerKey <> "doctor" ->
  get_prop (payout_obj ownerKey user_obj s p) "doctor" = Ok JUndefined.
Proof.
  intros H. apply String.eqb_neq in H. simpl. rewrite H. reflexivity.
Qed.

(** The outcome of [approvePayout] for an administrator when the lookup of
    lines 202-210 finds the payout: line 217 reads [payout.doctor], which the
    query of line 207 did not include. *)
Lemma approvePayout_found_run (ownerKey : string) (req : Request)
    (formData : FormData) (pid : string) (p : Payout) (w : World) :
  ownerKey <> "doctor" ->
  resolves_to_admin req (db w) ->
  dbError req Approve_findAdmin = None ->
  dbError req Approve_findPayout = None ->
  formData_get formData "payoutId" = JStr pid -> pid <> "" ->
  find_payout pid "PROCESSING" (db w) = Some p ->
  fails_without_mutation
    "Failed to approve payout: Cannot read properties of undefined (reading 'credits')"
    w (approvePayout ownerKey req formData w).
Proof.
  intros Hkey Hadm He1 He2 Hid Hne Hsome.
  destruct (approvePayout_reads ownerKey req formData pid w
              Hadm He1 He2 Hid Hne) as (admin & ->).
  rewrite Hsome. cbn [nullable].
  unfold try_catch, bind, lift.
  rewrite (payout_obj_doctor ownerKey (db w) p Hkey).
  split; reflexivity.
Qed.

(** C1 (what the code does instead).  For an administrator, a store that
    answers every call and a payout waiting for approval whose owner holds
    at least the requested credits, [approvePayout] does not return
    [{ success: true }]: the lookup of line 207 includes the relation
    [lawyer], line 217 reads [payout.doctor], and the action throws the
    wrapped TypeError, leaving payout, balance and ledger as they were. *)
Theorem approvePayout_sufficient_balance_throws (ownerKey : string)
    (req : Request) (formData : FormData) (pid : string) (p : Payout)
    (owner : User) (w : World) :
  ownerKey <> "doctor" ->
  resolves_to_admin req (db w) ->
  (forall c, dbError req c = None) ->
  formData_get formData "payoutId" = JStr pid -> pid <> "" ->
  find_payout pid "PROCESSING" (db w) = Some p ->
  find_user (payout_owner p) (db w) = Some owner ->
  payout_credits p <= user_credits owner ->
  fails_without_mutation
    "Failed to approve payout: Cannot read properties of undefined (reading 'credits')"
    w (approvePayout ownerKey req formData w) /\
  fst (approvePayout ownerKey req formData w) <> Ok success.
Proof.
  intros Hkey Hadm Hok Hid Hne Hp _ _.
  pose proof (approvePayout_found_run ownerKey req formData pid p w
                Hkey Hadm (Hok _) (Hok _) Hid Hne Hp) as [H1 H2].
  split; [split; assumption|]. rewrite H1. discriminate.
Qed.

(** C3 (what the code does instead).  For an administrator, a store that
    answers every call and a payout waiting for approval whose owner holds
    fewer credits than requested, [approvePayout] changes nothing in the
    store, but the error it throws is the wrapped TypeError of line 217 and
    not the insufficient-credits error of line 218. *)
Theorem approvePayout_insufficient_balance_error (ownerKey : string)
    (req : Request) (formData : FormData) (pid : string) (p : Payout)
    (owner : User) (w : World) :
  ownerKey <> "doctor" ->
  resolves_to_admin req (db w) ->
  (forall c, dbError req c = None) ->
  formData_get formData "payoutId" = JStr pid -> pid <> "" ->
  find_payout pid "PROCESSING" (db w) = Some p ->
  find_user (payout_owner p) (db w) = Some owner ->
  user_credits owner < payout_credits p ->
  fails_without_mutation
    "Failed to approve payout: Cannot read properties of undefined (reading 'credits')"
    w (approvePayout ownerKey req formData w) /\
  fst (approvePayout ownerKey req formData w)
  <> Throw "Failed to approve payout: lawyer doesn't have enough credits for this payout" /\
  fst (approvePayout ownerKey req formData w)
  <> Throw "lawyer doesn't have enough credits for this payout".
Proof.
  intros Hkey Hadm Hok Hid Hne Hp _ _.
  pose proof (approvePayout_found_run ownerKey req formData pid p w
                Hkey Hadm (Hok _) (Hok _) Hid Hne Hp) as [H1 H2].
  split; [split; assumption|]. rewrite H1. split; discriminate.
Qed.

(** C2.  The approval is atomic.  When the store fails on the balance
    decrement or on the ledger insert, the transaction of lines 222-255
    throws and the store is as before it; whatever happens, that transaction
    either throws with the store as before, or returns with the payout
    update, the decrement and the ledger row all applied; and whenever
    [approvePayout] throws, the store is as it was before the call. *)
Theorem approvePayout_atomic (ownerKey : string) (req : Request)
    (formData : FormData) (payoutId admin payout : JsValue) (w : World) :
  (forall message,
     dbError req Tx_userUpdate = Some message \/
     dbError req Tx_creditTransactionCreate = Some message ->
     exists e w',
       approveTransaction req payoutId admin payout w = (Throw e, w') /\
       db w' = db w) /\
  (forall r w',
     approveTransaction req payoutId admin payout w = (r, w') ->
     (exists e, r = Throw e /\ db w' = db w) \/
     (r = Ok tt /\
      exists pid by_ owner amount,
        db w' = approval_applied pid by_ owner amount (now req) (db w))) /\
  (forall e w',
     approvePayout ownerKey req formData w = (Throw e, w') -> db w' = db w).
Proof.
  split; [|split].
  - intros message H. apply (approveTransaction_step_failure _ _ _ _ _ message H).
  - intros [[]|e] w' H.
    + right. split; [reflexivity|].
      destruct (approveTransaction_commits _ _ _ _ _ _ H)
        as (pid & by_ & owner & amount & _ & _ & _ & _ & Hdb).
      exists pid, by_, owner, amount. exact Hdb.
    + left. exists e. split; [reflexivity|].
      unfold approveTransaction in H.
      apply (keeps_store_on_throw_transaction _ _ _ _ _ H).
  - intros e w' H. apply (approvePayout_keeps_store_on_throw _ _ _ _ _ _ H).
Qed.

(** C4.  For an administrator, a present [payoutId] and a store that answers
    the two lookups, when no payout with that id is waiting for approval
    (unknown id, or already processed, as it is once the approval
    transaction for that id has committed), [approvePayout] throws the
    wrapped "Payout request not found or already processed" and leaves the
    store as it was. *)
Theorem approvePayout_not_found (ownerKey : string) (req : Request)
    (formData : FormData) (pid : string) (w : World) :
  resolves_to_admin req (db w) ->
  dbError req Approve_findAdmin = None ->
  dbError req Approve_findPayout = None ->
  formData_get formData "payoutId" = JStr pid -> pid <> "" ->
  not_processing pid (db w) \/
  (exists req0 admin payout w0 w1,
     approveTransaction req0 (JStr pid) admin payout w0 = (Ok tt, w1) /\
     db w = db w1) ->
  fails_without_mutation
    "Failed to approve payout: Payout request not found or already processed"
    w (approvePayout ownerKey req formData w).
Proof.
  intros Hadm He1 He2 Hid Hne Hnp.
  apply (approvePayout_not_found_run ownerKey req formData pid w); try assumption.
  destruct Hnp as [Hnp | (req0 & admin & payout & w0 & w1 & Htx & Hdb)].
  - apply find_payout_none, Hnp.
  - destruct (approveTransaction_commits _ _ _ _ _ _ Htx)
      as (pid' & by_ & owner & amount & Hpid & _ & _ & _ & Hw1).
    injection Hpid as <-.
    rewrite Hdb, Hw1. apply find_payout_after_approval.
Qed.

(* ================================================================== *)
(** ** The properties on the sample data *)

Lemma sample_admin_resolves (failing : DbCall -> option string) (w : World) :
  verifyAdmin (mkRequest (Ok (Some "clerk-admin")) 99 failing) w = (Ok true, w) ->
  resolves_to_admin (mkRequest (Ok (Some "clerk-admin")) 99 failing) (db w).
Proof. intros H. apply admin_call_resolves. exact H. Qed.

Lemma approvePayout_sufficient_balance_throws_witness :
  fails_without_mutation
    "Failed to approve payout: Cannot read properties of undefined (reading 'credits')"
    Sample.world
    (approvePayout "lawyerId" Sample.byAdmin
       (Sample.form [("payoutId", "p-50")]) Sample.world) /\
  fst (approvePayout "lawyerId" Sample.byAdmin
         (Sample.form [("payoutId", "p-50")]) Sample.world) <> Ok success.
Proof.
  apply (approvePayout_sufficient_balance_throws "lawyerId" Sample.byAdmin
           (Sample.form [("payoutId", "p-50")]) "p-50"
           Sample.payout50 Sample.provider Sample.world).
  - discriminate.
  - apply sample_admin_resolves. reflexivity.
  - reflexivity.
  - reflexivity.
  - discriminate.
  - reflexivity.
  - reflexivity.
  - simpl. lia.
Defined.

Lemma approvePayout_insufficient_balance_error_witness :
  fails_without_mutation
    "Failed to approve payout: Cannot read properties of undefined (reading 'credits')"
    Sample.world
    (approvePayout "lawyerId" Sample.byAdmin
       (Sample.form [("payoutId", "p-150")]) Sample.world).
Proof.
  apply (approvePayout_insufficient_balance_error "lawyerId" Sample.byAdmin
           (Sample.form [("payoutId", "p-150")]) "p-150"
           Sample.payout150 Sample.provider Sample.world).
  - discriminate.
  - apply sample_admin_resolves. reflexivity.
  - reflexivity.
  - reflexivity.
  - discriminate.
  - reflexivity.
  - reflexivity.
  - simpl. lia.
Defined.

Lemma approvePayout_atomic_witness :
  (exists e w',
     approveTransaction (Sample.byAdminFailing Tx_creditTransactionCreate)
       (JStr "p-50") (user_obj Sample.admin) Sample.payout50_obj Sample.world
     = (Throw e, w') /\ db w' = Sample.store) /\
  (exists e w',
     approveTransaction (Sample.byAdminFailing Tx_userUpdate)
       (JStr "p-50") (user_obj Sample.admin) Sample.payout50_obj Sample.world
     = (Throw e, w') /\ db w' = Sample.store) /\
  db Sample.afterApproval
  = approval_applied "p-50" "u-admin" "u-prov" 50 99 Sample.store.
Proof.
  split; [|split].
  - apply (proj1 (approvePayout_atomic "doctorId"
                    (Sample.byAdminFailing Tx_creditTransactionCreate) []
                    (JStr "p-50") (user_obj Sample.admin) Sample.payout50_obj
                    Sample.world) "connection lost").
    right. reflexivity.
  - apply (proj1 (approvePayout_atomic "doctorId"
                    (Sample.byAdminFailing Tx_userUpdate) []
                    (JStr "p-50") (user_obj Sample.admin) Sample.payout50_obj
                    Sample.world) "connection lost").
    left. reflexivity.
  - reflexivity.
Defined.

Lemma approvePayout_not_found_witness :
  fails_without_mutation
    "Failed to approve payout: Payout request not found or already processed"
    Sample.world
    (approvePayout "lawyerId" Sample.byAdmin
       (Sample.form [("payoutId", "p-done")]) Sample.world) /\
  fails_without_mutation
    "Failed to approve payout: Payout request not found or already processed"
    Sample.afterApproval
    (approvePayout "doctorId" Sample.byAdmin
       (Sample.form [("payoutId", "p-50")]) Sample.afterApproval).
Proof.
  split.
  - apply (approvePayout_not_found "lawyerId" Sample.byAdmin
             (Sample.form [("payoutId", "p-done")]) "p-done" Sample.world).
    + apply sample_admin_resolves. reflexivity.
    + reflexivity.
    + reflexivity.
    + reflexivity.
    + discriminate.
    + left. intros p Hin Hid.
      destruct Hin as [<-|[<-|[<-|[]]]]; simpl in *; discriminate.
  - apply (approvePayout_not_found "doctorId" Sample.byAdmin
             (Sample.form [("payoutId", "p-50")]) "p-50" Sample.afterApproval).
    + apply sample_admin_resolves. reflexivity.
    + reflexivity.
    + reflexivity.
    + reflexivity.
    + discriminate.
    + right.
      exists Sample.byAdmin, (user_obj Sample.admin), Sample.payout50_obj,
             Sample.world, Sample.afterApproval.
      split; reflexivity.
Defined.

Lemma verifyAdmin_raises_when_identity_rejected :
  verifyAdmin SampleMore.identityDown Sample.world
  = (Throw "identity provider unreachable", Sample.world) /\
  ~ (exists b w',
       verifyAdmin SampleMore.identityDown Sample.world = (Ok b, w')).
Proof.
  split; [reflexivity|].
  intros (b & w' & H). discriminate H.
Qed.

Lemma verifyAdmin_raises_only_on_rejected_identity_witness :
  verifyAdmin Sample.byAdmin Sample.world = (Ok true, Sample.world) /\
  fst (verifyAdmin Sample.anonymous Sample.world) = Ok false /\
  fst (verifyAdmin (Sample.byAdminFailing VerifyAdmin_findUnique) Sample.world)
  = Ok false /\
  verifyAdmin SampleMore.identityDown Sample.world
  = (Throw "identity provider unreachable", Sample.world).
Proof.
  split; [reflexivity|]. split; [|split].
  - destruct (proj2 (verifyAdmin_raises_only_on_rejected_identity
                       Sample.anonymous Sample.world))
      as (b & w' & Hv & _ & _ & Hnone & _).
    + exists None. reflexivity.
    + rewrite Hv. simpl. rewrite (Hnone eq_refl). reflexivity.
  - destruct (proj2 (verifyAdmin_raises_only_on_rejected_identity
                       (Sample.byAdminFailing VerifyAdmin_findUnique)
                       Sample.world))
      as (b & w' & Hv & _ & _ & _ & _ & Hfail).
    + exists (Some "clerk-admin"). reflexivity.
    + rewrite Hv. simpl. rewrite (Hfail "connection lost" eq_refl).
      reflexivity.
  - apply (proj1 (verifyAdmin_raises_only_on_rejected_identity
                    SampleMore.identityDown Sample.world)).
    reflexivity.
Defined.

Lemma non_admin_unauthorized_witness :
  fails_without_mutation "Unauthorized" Sample.world
    (getPendingDoctors Sample.byProvider Sample.world) /\
  fails_without_mutation "Unauthorized" Sample.world
    (approvePayout "lawyerId" Sample.anonymous
       (Sample.form [("payoutId", "p-50")]) Sample.world).
Proof.
  split.
  - apply (non_admin_unauthorized "lawyerId" String.leb Sample.byProvider []
             Sample.world).
    + exists (Some "clerk-prov"). reflexivity.
    + apply not_resolves_of_verifyAdmin. reflexivity.
  - apply (non_admin_unauthorized "lawyerId" String.leb Sample.anonymous
             (Sample.form [("payoutId", "p-50")]) Sample.world).
    + exists None. reflexivity.
    + apply not_resolves_of_verifyAdmin. reflexivity.
Defined.

Lemma updateLawyerActiveStatus_round_trip_witness :
  exists w1 w2,
    updateLawyerActiveStatus Sample.byAdmin
      (Sample.form [("lawyerId", "u-prov"); ("suspend", "true")]) Sample.world
    = (Ok success, w1) /\
    verificationStatus_of "u-prov" (db w1) = Some "PENDING" /\
    updateLawyerActiveStatus Sample.byAdmin
      (Sample.form [("lawyerId", "u-prov"); ("suspend", "false")]) w1
    = (Ok success, w2) /\
    verificationStatus_of "u-prov" (db w2) = Some "VERIFIED".
Proof.
  apply (updateLawyerActiveStatus_round_trip Sample.byAdmin Sample.byAdmin
           (Sample.form [("lawyerId", "u-prov"); ("suspend", "true")])
           (Sample.form [("lawyerId", "u-prov"); ("suspend", "false")])
           "u-prov" Sample.provider Sample.world).
  - apply sample_admin_resolves. reflexivity.
  - apply sample_admin_resolves. reflexivity.
  - reflexivity.
  - reflexivity.
  - reflexivity.
  - reflexivity.
  - reflexivity.
  - reflexivity.
  - discriminate.
  - reflexivity.
Defined.

Lemma updateLawyerStatus_validates_witness :
  updateLawyerStatus Sample.byAdmin
    (Sample.form [("lawyerId", "u-appl"); ("status", "PENDING")]) Sample.world
  = (Throw "Invalid input", Sample.world) /\
  updateLawyerStatus Sample.byAdmin
    (Sample.form [("status", "VERIFIED")]) Sample.world
  = (Throw "Invalid input", Sample.world) /\
  exists w',
    updateLawyerStatus Sample.byAdmin
      (Sample.form [("lawyerId", "u-appl"); ("status", "REJECTED")]) Sample.world
    = (Ok success, w') /\
    verificationStatus_of "u-appl" (db w') = Some "REJECTED".
Proof.
  assert (Hadm : resolves_to_admin Sample.byAdmin (db Sample.world))
    by (apply sample_admin_resolves; reflexivity).
  destruct (updateLawyerStatus_validates Sample.byAdmin Sample.world Hadm)
    as [Hbad Hgood].
  split; [|split].
  - apply Hbad. right. split; discriminate.
  - apply Hbad. left. left. reflexivity.
  - destruct (Hgood (Sample.form [("lawyerId", "u-appl"); ("status", "REJECTED")])
                "u-appl" "REJECTED" Sample.applicant)
      as (w' & Hrun & Hst & _);
      try reflexivity; try discriminate; [right; reflexivity|].
    exists w'. split; assumption.
Defined.

Lemma listings_raise_alike_on_privilege_lookup_failure :
  dbError (Sample.byAdminFailing VerifyAdmin_findUnique) VerifyAdmin_findUnique
  = Some "connection lost" /\
  fst (getVerifiedLawyers String.leb
         (Sample.byAdminFailing VerifyAdmin_findUnique) Sample.world)
  = Throw "Unauthorized" /\
  fst (getPendingDoctors (Sample.byAdminFailing VerifyAdmin_findUnique)
         Sample.world)
  = Throw "Unauthorized" /\
  ~ (exists v w',
       getVerifiedLawyers String.leb
         (Sample.byAdminFailing VerifyAdmin_findUnique) Sample.world
       = (Ok v, w')).
Proof.
  repeat split; try reflexivity.
  intros (v & w' & H). discriminate H.
Qed.

Lemma listings_differ_on_store_failure_witness :
  getPendingDoctors (Sample.byAdminFailing PendingDoctors_findMany) Sample.world
  = (Throw "Failed to fetch pending lawyers", Sample.world) /\
  (exists w',
     getVerifiedLawyers String.leb
       (Sample.byAdminFailing VerifiedLawyers_findMany) Sample.world
     = (Ok (JObj [("error", JStr "Failed to fetch verified lawyers")]), w') /\
     db w' = Sample.store) /\
  (exists l,
     getPendingDoctors Sample.byAdmin Sample.world
     = (Ok (JObj [("doctors", JArr (map user_obj l))]), Sample.world) /\
     Permutation l [Sample.applicant]) /\
  fails_without_mutation "Unauthorized" Sample.world
    (getVerifiedLawyers String.leb
       (Sample.byAdminFailing VerifyAdmin_findUnique) Sample.world).
Proof.
  split; [|split; [|split]].
  - apply (proj1 (listings_differ_on_store_failure String.leb
                    (Sample.byAdminFailing PendingDoctors_findMany)
                    Sample.world))
      with (message := "connection lost").
    + apply sample_admin_resolves. reflexivity.
    + reflexivity.
  - apply (proj1 (listings_differ_on_store_failure String.leb
                    (Sample.byAdminFailing VerifiedLawyers_findMany)
                    Sample.world))
      with (message := "connection lost").
    + apply sample_admin_resolves. reflexivity.
    + reflexivity.
  - apply (proj1 (listings_differ_on_store_failure String.leb
                    Sample.byAdmin Sample.world)).
    + apply sample_admin_resolves. reflexivity.
    + reflexivity.
  - apply (proj2 (listings_differ_on_store_failure String.leb
                    (Sample.byAdminFailing VerifyAdmin_findUnique)
                    Sample.world)) with (message := "connection lost").
    + exists (Some "clerk-admin"). reflexivity.
    + reflexivity.
Defined.

Lemma updateLawyerActiveStatus_defaults_to_verified_witness :
  exists w',
    updateLawyerActiveStatus Sample.byAdmin
      (Sample.form [("lawyerId", "u-appl"); ("suspend", "TRUE")]) Sample.world
    = (Ok success, w') /\
    verificationStatus_of "u-appl" (db w') = Some "VERIFIED".
Proof.
  destruct (updateLawyerActiveStatus_defaults_to_verified Sample.byAdmin
              (Sample.form [("lawyerId", "u-appl"); ("suspend", "TRUE")])
              "u-appl" Sample.applicant Sample.world)
    as (w' & Hrun & Hst & _);
    try reflexivity; try discriminate.
  - apply sample_admin_resolves. reflexivity.
  - exists w'. split; assumption.
Defined.

(* ================================================================== *)
(** ** Further properties: the listings *)

Lemma insert_by_in_order {A} (leb : A -> A -> bool) (x : A) (l : list A) :
  (forall a b, leb a b = true \/ leb b a = true) ->
  in_order leb l -> in_order leb (insert_by leb x l).
Proof.
  intros Htot. unfold in_order.
  induction l as [|y l IH]; simpl; intros Hs.
  - constructor; constructor.
  - destruct (leb x y) eqn:E.
    + constructor; [exact Hs | constructor; exact E].
    + apply Sorted_inv in Hs. destruct Hs as [Hs Hd].
      constructor; [apply IH, Hs|].
      assert (Hyx : leb y x = true)
        by (destruct (Htot x y) as [H|H]; [congruence | exact H]).
      destruct l as [|z l]; simpl.
      * constructor. exact Hyx.
      * destruct (leb x z); constructor; [exact Hyx|].
        apply HdRel_inv in Hd. exact Hd.
Qed.

Lemma orderBy_in_order {A} (leb : A -> A -> bool) (l : list A) :
  (forall a b, leb a b = true \/ leb b a = true) ->
  in_order leb (orderBy leb l).
Proof.
  intros Htot. induction l as [|x l IH]; simpl.
  - constructor.
  - apply insert_by_in_order; assumption.
Qed.

Lemma createdAt_desc_total (a b : User) :
  createdAt_desc a b = true \/ createdAt_desc b a = true.
Proof. unfold createdAt_desc. lia. Qed.

Lemma payout_createdAt_desc_total (a b : Payout) :
  payout_createdAt_desc a b = true \/ payout_createdAt_desc b a = true.
Proof. unfold payout_createdAt_desc. lia. Qed.

Lemma getPendingDoctors_run (req : Request) (w : World) :
  resolves_to_admin req (db w) ->
  dbError req PendingDoctors_findMany = None ->
  getPendingDoctors req w
  = (Ok (JObj [("doctors",
                JArr (map user_obj
                        (orderBy createdAt_desc
                           (matching_users "LAWYER" "PENDING" (db w)))))]), w).
Proof.
  intros Hadm He. unfold getPendingDoctors.
  match goal with |- bind _ ?f _ = _ =>
    change (bind (verifyAdmin req) f w) with (gated req (f true) w) end.
  rewrite resolves_gated by assumption. cbn [negb]. cbv beta iota.
  unfold try_catch, bind. rewrite user_findMany_run by assumption.
  reflexivity.
Qed.

Lemma getVerifiedLawyers_run (nameLeb : string -> string -> bool)
    (req : Request) (w : World) :
  resolves_to_admin req (db w) ->
  dbError req VerifiedLawyers_findMany = None ->
  getVerifiedLawyers nameLeb req w
  = (Ok (JObj [("lawyers",
                JArr (map user_obj
                        (orderBy (name_asc nameLeb)
                           (matching_users "LAWYER" "VERIFIED" (db w)))))]), w).
Proof.
  intros Hadm He. unfold getVerifiedLawyers.
  match goal with |- bind _ ?f _ = _ =>
    change (bind (verifyAdmin req) f w) with (gated req (f true) w) end.
  rewrite resolves_gated by assumption. cbn [negb]. cbv beta iota.
  unfold try_catch, bind. rewrite user_findMany_run by assumption.
  reflexivity.
Qed.

Lemma getPendingPayouts_run (ownerKey : string) (req : Request) (w : World) :
  resolves_to_admin req (db w) ->
  dbError req PendingPayouts_findMany = None ->
  getPendingPayouts ownerKey req w
  = (Ok (JObj [("payouts",
                JArr (map (payout_obj ownerKey user_select_obj (db w))
                        (orderBy payout_createdAt_desc
                           (processing_payouts (db w)))))]), w).
Proof.
  intros Hadm He. unfold getPendingPayouts.
  match goal with |- bind _ ?f _ = _ =>
    change (bind (verifyAdmin req) f w) with (gated req (f true) w) end.
  rewrite resolves_gated by assumption. cbn [negb]. cbv beta iota.
  unfold try_catch, bind, db_call, payout_findMany_processing, reading.
  rewrite He, set_db_same. reflexivity.
Qed.

(** X1.  For an administrator, when the store answers, [getPendingPayouts]
    returns [{ payouts }] holding exactly the payouts whose status is
    PROCESSING (each once, none else), newest first, and changes nothing. *)
Theorem getPendingPayouts_lists_processing (ownerKey : string) (req : Request)
    (w : World) :
  resolves_to_admin req (db w) ->
  dbError req PendingPayouts_findMany = None ->
  exists l,
    getPendingPayouts ownerKey req w
    = (Ok (JObj [("payouts",
                  JArr (map (payout_obj ownerKey user_select_obj (db w)) l))]), w) /\
    Permutation l
      (filter (fun p => (payout_status p =? "PROCESSING")%string)
              (payouts (db w))) /\
    StronglySorted (fun a b => payout_createdAt b <= payout_createdAt a) l.
Proof.
  intros Hadm He. eexists. split; [|split].
  - apply getPendingPayouts_run; assumption.
  - apply orderBy_perm.
  - apply Sorted_StronglySorted.
    + intros a b c Hab Hbc. lia.
    + pose proof (orderBy_in_order payout_createdAt_desc
                    (processing_payouts (db w)) payout_createdAt_desc_total) as H.
      unfold in_order, payout_createdAt_desc in H.
      eapply Sorted_ind with (P := Sorted _); [constructor| |exact H].
      intros a l _ IH Hd. constructor; [exact IH|].
      destruct Hd; constructor. lia.
Qed.

(** X2.  Whenever [getPendingPayouts] returns a listing, each of its entries
    is a stored payout waiting for approval, and what it shows of the
    owning provider under [lawyer] is exactly the five selected columns of
    that provider's row ([id], [name], [email], [specialty], [credits]) and
    no other ([null] if the store has no such user). *)
Theorem getPendingPayouts_owner_projection (ownerKey : string)
    (req : Request) (w : World) (listing entry : JsValue) (w' : World)
    (entries : list JsValue) :
  ownerKey <> "lawyer" ->
  getPendingPayouts ownerKey req w = (Ok listing, w') ->
  get_prop_opt listing "payouts" = JArr entries ->
  In entry entries ->
  exists p,
    In p (payouts (db w)) /\ payout_status p = "PROCESSING" /\
    get_prop_opt entry "id" = JStr (payout_id p) /\
    get_prop_opt entry "lawyer"
    = match find_user (payout_owner p) (db w) with
      | Some u =>
          JObj [("id", JStr (user_id u));
                ("name", JStr (user_name u));
                ("email", JStr (user_email u));
                ("specialty", JStr (user_specialty u));
                ("credits", JNum (user_credits u))]
      | None => JNull
      end.
Proof.
  intros Hkey Hrun Hl Hin.
  unfold getPendingPayouts in Hrun.
  apply bind_ok_inv in Hrun. destruct Hrun as (b & w1 & Hv & Hrun).
  apply keeps_store_verifyAdmin in Hv.
  destruct b; simpl in Hrun; [|discriminate].
  unfold try_catch in Hrun.
  match type of Hrun with
  | context [bind ?m ?k w1] => destruct (bind m k w1) as [[v|e] w2] eqn:E
  end.
  2:{ unfold bind, console_error, throw in Hrun. discriminate. }
  inversion Hrun; subst v w2. clear Hrun.
  apply bind_ok_inv in E. destruct E as (arr & w3 & Hq & Hret).
  inversion Hret; subst listing w3. clear Hret.
  apply db_call_ok_inv in Hq. destruct Hq as (s & Hq & _).
  unfold payout_findMany_processing, reading in Hq.
  inversion Hq; subst arr s. clear Hq.
  simpl in Hl. inversion Hl; subst entries. clear Hl.
  rewrite Hv in Hin.
  apply in_map_iff in Hin. destruct Hin as (p & <- & Hp).
  apply (Permutation_in _ (orderBy_perm _ _)) in Hp.
  apply filter_In in Hp. destruct Hp as [Hp Hst].
  apply String.eqb_eq in Hst.
  exists p. split; [exact Hp|]. split; [exact Hst|].
  apply String.eqb_neq in Hkey.
  unfold payout_obj. simpl. rewrite Hkey. split; [reflexivity|].
  destruct (find_user (payout_owner p) (db w)); reflexivity.
Qed.

(** X3.  For an administrator, when the store answers, [getPendingDoctors]
    lists the providers of role LAWYER and status PENDING, all of them and
    no other, newest first: no entry was created before one that follows
    it. *)
Theorem getPendingDoctors_newest_first (req : Request) (w : World) :
  resolves_to_admin req (db w) ->
  dbError req PendingDoctors_findMany = None ->
  exists l,
    getPendingDoctors req w
    = (Ok (JObj [("doctors", JArr (map user_obj l))]), w) /\
    Permutation l
      (filter (fun u => (user_role u =? "LAWYER")%string
                        && (user_verificationStatus u =? "PENDING")%string)
              (users (db w))) /\
    StronglySorted (fun a b => user_createdAt b <= user_createdAt a) l.
Proof.
  intros Hadm He. eexists. split; [|split].
  - apply getPendingDoctors_run; assumption.
  - apply orderBy_perm.
  - apply Sorted_StronglySorted.
    + intros a b c Hab Hbc. lia.
    + pose proof (orderBy_in_order createdAt_desc
                    (matching_users "LAWYER" "PENDING" (db w))
                    createdAt_desc_total) as H.
      unfold in_order, createdAt_desc in H.
      eapply Sorted_ind with (P := Sorted _); [constructor| |exact H].
      intros a l _ IH Hd. constructor; [exact IH|].
      destruct Hd; constructor. lia.
Qed.

(** X4.  For an administrator, when the store answers and orders names by a
    total order, [getVerifiedLawyers] lists the providers of role LAWYER and
    status VERIFIED, all of them and no other, by name, ascending in that
    order. *)
Theorem getVerifiedLawyers_by_name (nameLeb : string -> string -> bool)
    (req : Request) (w : World) :
  (forall a b, nameLeb a b = true \/ nameLeb b a = true) ->
  resolves_to_admin req (db w) ->
  dbError req VerifiedLawyers_findMany = None ->
  exists l,
    getVerifiedLawyers nameLeb req w
    = (Ok (JObj [("lawyers", JArr (map user_obj l))]), w) /\
    Permutation l
      (filter (fun u => (user_role u =? "LAWYER")%string
                        && (user_verificationStatus u =? "VERIFIED")%string)
              (users (db w))) /\
    Sorted (fun a b => nameLeb (user_name a) (user_name b) = true) l.
Proof.
  intros Htot Hadm He. eexists. split; [|split].
  - apply getVerifiedLawyers_run; assumption.
  - apply orderBy_perm.
  - apply (orderBy_in_order (name_asc nameLeb)).
    intros a b. apply Htot.
Qed.

Lemma preserves_weaken {A B} (f : World -> B) (m : M A) :
  preserves f m -> preserves_on_throw f m.
Proof. intros H w e w'. apply H. Qed.

Lemma preserves_ret {A B} (f : World -> B) (a : A) : preserves f (ret a).
Proof. intros w r w' H. inversion H. reflexivity. Qed.

Lemma preserves_throw {A B} (f : World -> B) (e : string) :
  preserves f (@throw A e).
Proof. intros w r w' H. inversion H. reflexivity. Qed.

Lemma preserves_lift {A B} (f : World -> B) (r : Result A) : preserves f (lift r).
Proof. intros w r' w' H. inversion H. reflexivity. Qed.

Lemma preserves_bind {A B C} (f : World -> C) (m : M A) (k : A -> M B) :
  preserves f m -> (forall a, preserves f (k a)) -> preserves f (bind m k).
Proof.
  intros Hm Hk w r w'. unfold bind.
  destruct (m w) as [[a|e] w1] eqn:E; intros H.
  - rewrite (Hk a _ _ _ H). apply (Hm _ _ _ E).
  - inversion H; subst. apply (Hm _ _ _ E).
Qed.

Lemma preserves_try_catch {A C} (f : World -> C) (m : M A) (h : string -> M A) :
  preserves f m -> (forall e, preserves f (h e)) -> preserves f (try_catch m h).
Proof.
  intros Hm Hh w r w'. unfold try_catch.
  destruct (m w) as [[a|e] w1] eqn:E; intros H.
  - inversion H; subst. apply (Hm _ _ _ E).
  - rewrite (Hh e _ _ _ H). apply (Hm _ _ _ E).
Qed.

Lemma preserves_console_error {B} (f : World -> B) (label e : string) :
  ignores_console f -> preserves f (console_error label e).
Proof.
  intros Hf w r w' H. inversion H. destruct w as [d rv c]. apply Hf.
Qed.

Lemma ignores_console_db : ignores_console db.
Proof. intros d r c c'. reflexivity. Qed.

Lemma ignores_console_revalidated : ignores_console revalidated.
Proof. intros d r c c'. reflexivity. Qed.

Lemma preserves_reading {A B} (f : World -> B) (req : Request) (c : DbCall)
    (q : Store -> Result A) :
  preserves f (db_call req c (reading q)).
Proof.
  intros w r w'. unfold db_call, reading.
  destruct (dbError req c); intros H; inversion H;
    [reflexivity | rewrite set_db_same; reflexivity].
Qed.

Lemma preserves_revalidated_db_call {A} (req : Request) (c : DbCall)
    (q : Store -> Result A * Store) :
  preserves revalidated (db_call req c q).
Proof.
  intros w r w'. unfold db_call.
  destruct (dbError req c); [intros H; inversion H; reflexivity|].
  destruct (q (db w)). intros H; inversion H; reflexivity.
Qed.

Lemma preserves_verifyAdmin {B} (f : World -> B) (req : Request) :
  ignores_console f -> preserves f (verifyAdmin req).
Proof.
  intros Hf w r w' H.
  destruct (verifyAdmin_cases req w)
    as [(m & _ & Hv) | (_ & b & w1 & Hv & Hdb & Hrev & _)];
    rewrite Hv in H; inversion H; subst; [reflexivity|].
  destruct w as [d rv c], w' as [d' rv' c']. simpl in *. subst.
  apply Hf.
Qed.

Lemma throws_only_weaken {A} (P Q : string -> Prop) (m : M A) :
  (forall e, P e -> Q e) -> throws_only P m -> throws_only Q m.
Proof. intros HPQ H w e w' Hm. apply HPQ, (H _ _ _ Hm). Qed.

Lemma throws_only_ret {A} (P : string -> Prop) (a : A) : throws_only P (ret a).
Proof. intros w e w' H. discriminate. Qed.

Lemma throws_only_throw {A} (P : string -> Prop) (e : string) :
  P e -> throws_only P (@throw A e).
Proof. intros He w e' w' H. inversion H; subst. exact He. Qed.

Lemma throws_only_bind {A B} (P : string -> Prop) (m : M A) (k : A -> M B) :
  throws_only P m -> (forall a, throws_only P (k a)) ->
  throws_only P (bind m k).
Proof.
  intros Hm Hk w e w'. unfold bind.
  destruct (m w) as [[a|e'] w1] eqn:E; intros H.
  - apply (Hk a _ _ _ H).
  - inversion H; subst. apply (Hm _ _ _ E).
Qed.

Lemma throws_only_try_catch {A} (P : string -> Prop) (m : M A)
    (h : string -> M A) :
  (forall e, throws_only P (h e)) -> throws_only P (try_catch m h).
Proof.
  intros Hh w e w'. unfold try_catch.
  destruct (m w) as [[a|e'] w1]; intros H; [discriminate|].
  apply (Hh e' _ _ _ H).
Qed.

Lemma throws_only_console_error (P : string -> Prop) (label e : string) :
  throws_only P (console_error label e).
Proof. intros w e' w' H. discriminate. Qed.

(** [verifyAdmin] throws nothing but the error [auth()] rejects with. *)
Lemma throws_only_verifyAdmin (req : Request) :
  throws_only (fun e => auth_userId req = Throw e) (verifyAdmin req).
Proof.
  intros w e w' H.
  destruct (verifyAdmin_cases req w)
    as [(m & Ha & Hv) | (_ & b & w1 & Hv & _)]; rewrite Hv in H.
  - inversion H; subst. exact Ha.
  - discriminate.
Qed.

Lemma throws_only_gate (P : string -> Prop) (req : Request) :
  (forall e, auth_userId req = Throw e -> P e) ->
  throws_only P (verifyAdmin req).
Proof.
  intros H. apply (throws_only_weaken _ _ _ H), throws_only_verifyAdmin.
Qed.

Create HintDb world_frame.

#[local] Hint Resolve preserves_ret preserves_throw preserves_lift
  preserves_console_error preserves_reading preserves_revalidated_db_call
  preserves_verifyAdmin ignores_console_db ignores_console_revalidated
  throws_only_ret throws_only_console_error
  : world_frame.

(** X5.  The three listings only read: whatever [getPendingDoctors],
    [getVerifiedLawyers] and [getPendingPayouts] return or throw, for
    whichever caller, the store is as before the call and no path has been
    invalidated. *)
Theorem listings_read_only (ownerKey : string)
    (nameLeb : string -> string -> bool) (req : Request) (w : World) :
  (forall r w',
     getPendingDoctors req w = (r, w') ->
     db w' = db w /\ revalidated w' = revalidated w) /\
  (forall r w',
     getVerifiedLawyers nameLeb req w = (r, w') ->
     db w' = db w /\ revalidated w' = revalidated w) /\
  (forall r w',
     getPendingPayouts ownerKey req w = (r, w') ->
     db w' = db w /\ revalidated w' = revalidated w).
Proof.
  assert (Hpd : forall B (f : World -> B), ignores_console f ->
                  preserves f (getPendingDoctors req)).
  { intros B f Hf. unfold getPendingDoctors.
    apply preserves_bind; [auto with world_frame|].
    intros [|]; simpl; [|auto with world_frame].
    apply preserves_try_catch; [|auto with world_frame].
    apply preserves_bind; [|auto with world_frame].
    unfold user_findMany. auto with world_frame. }
  assert (Hvl : forall B (f : World -> B), ignores_console f ->
                  preserves f (getVerifiedLawyers nameLeb req)).
  { intros B f Hf. unfold getVerifiedLawyers.
    apply preserves_bind; [auto with world_frame|].
    intros [|]; simpl; [|auto with world_frame].
    apply preserves_try_catch.
    - apply preserves_bind; [|auto with world_frame].
      unfold user_findMany. auto with world_frame.
    - intros e. apply preserves_bind; auto with world_frame. }
  assert (Hpp : forall B (f : World -> B), ignores_console f ->
                  preserves f (getPendingPayouts ownerKey req)).
  { intros B f Hf. unfold getPendingPayouts.
    apply preserves_bind; [auto with world_frame|].
    intros [|]; simpl; [|auto with world_frame].
    apply preserves_try_catch.
    - apply preserves_bind; [|auto with world_frame].
      unfold payout_findMany_processing. auto with world_frame.
    - intros e. apply preserves_bind; auto with world_frame. }
  repeat split;
    match goal with
    | H : ?m w = _ |- db _ = _ =>
        first [ apply (Hpd _ db ignores_console_db _ _ _ H)
              | apply (Hvl _ db ignores_console_db _ _ _ H)
              | apply (Hpp _ db ignores_console_db _ _ _ H) ]
    | H : ?m w = _ |- revalidated _ = _ =>
        first [ apply (Hpd _ revalidated ignores_console_revalidated _ _ _ H)
              | apply (Hvl _ revalidated ignores_console_revalidated _ _ _ H)
              | apply (Hpp _ revalidated ignores_console_revalidated _ _ _ H) ]
    end.
Qed.

(** X6.  The errors of the listings.  Apart from the error [auth()] itself
    rejects with, [getPendingDoctors] throws nothing but "Unauthorized" and
    "Failed to fetch pending lawyers", [getPendingPayouts] nothing but
    "Unauthorized" and "Failed to fetch pending payouts", and
    [getVerifiedLawyers] nothing but "Unauthorized": the message of the
    store never reaches the caller. *)
Theorem listings_errors (ownerKey : string)
    (nameLeb : string -> string -> bool) (req : Request) (w : World) :
  (forall e w',
     getPendingDoctors req w = (Throw e, w') ->
     e = "Unauthorized" \/ e = "Failed to fetch pending lawyers" \/
     auth_userId req = Throw e) /\
  (forall e w',
     getVerifiedLawyers nameLeb req w = (Throw e, w') ->
     e = "Unauthorized" \/ auth_userId req = Throw e) /\
  (forall e w',
     getPendingPayouts ownerKey req w = (Throw e, w') ->
     e = "Unauthorized" \/ e = "Failed to fetch pending payouts" \/
     auth_userId req = Throw e).
Proof.
  split; [|split]; intros e w'.
  - apply (throws_only_bind
             (fun e => e = "Unauthorized" \/
                       e = "Failed to fetch pending lawyers" \/
                       auth_userId req = Throw e)).
    + apply throws_only_gate. auto.
    + intros [|]; simpl.
      * apply throws_only_try_catch. intros e0.
        apply throws_only_throw. right. left. reflexivity.
      * apply throws_only_throw. left. reflexivity.
  - apply (throws_only_bind
             (fun e => e = "Unauthorized" \/ auth_userId req = Throw e)).
    + apply throws_only_gate. auto.
    + intros [|]; simpl.
      * apply throws_only_try_catch. intros e0.
        apply throws_only_bind; auto with world_frame.
      * apply throws_only_throw. left. reflexivity.
  - apply (throws_only_bind
             (fun e => e = "Unauthorized" \/
                       e = "Failed to fetch pending payouts" \/
                       auth_userId req = Throw e)).
    + apply throws_only_gate. auto.
    + intros [|]; simpl.
      * apply throws_only_try_catch. intros e0.
        apply throws_only_bind; [auto with world_frame|].
        intros _. apply throws_only_throw. right. left. reflexivity.
      * apply throws_only_throw. left. reflexivity.
Qed.

(* ================================================================== *)
(** ** Further properties: the status updates *)

Lemma includes_status_inv (v : JsValue) :
  includes ["VERIFIED"; "REJECTED"] v = true ->
  exists st, v = JStr st /\ (st = "VERIFIED" \/ st = "REJECTED").
Proof.
  unfold includes. simpl. intros H.
  destruct (strict_eq_str v "VERIFIED") eqn:E1.
  - apply strict_eq_str_true in E1. eauto.
  - destruct (strict_eq_str v "REJECTED") eqn:E2; [|discriminate].
    apply strict_eq_str_true in E2. eauto.
Qed.

Lemma truthy_inv (v : JsValue) :
  truthy v = true -> v <> JNull /\ v <> JStr "".
Proof. intros H. split; intros ->; discriminate. Qed.

Lemma user_update_status_cases (id status : JsValue) (s : Store) :
  (exists i st u,
     id = JStr i /\ status = JStr st /\ find_user i s = Some u /\
     user_update_status id status s
     = (Ok tt, update_users i (set_verificationStatus st) s)) \/
  (exists e, user_update_status id status s = (Throw e, s)).
Proof.
  unfold user_update_status.
  destruct id; try (right; eexists; reflexivity).
  destruct status; try (right; eexists; reflexivity).
  destruct (find_user s0 s) as [u|] eqn:E.
  - left. eexists _, _, _. repeat split. exact E.
  - right. eexists. reflexivity.
Qed.

(** The try block shared by the two status updates (lines 94-109 and
    126-143): one write, then the invalidation of [/admin]; any error is
    logged and thrown again under the same prefix. *)
Lemma update_block_cases (req : Request) (c : DbCall) (id status : JsValue)
    (label : string) (w : World) (r : Result JsValue) (w' : World) :
  try_catch
    (db_call req c (user_update_status id status) ;;;
     revalidatePath "/admin" ;;;
     ret success)
    (fun error =>
       console_error label error ;;;
       throw ("Failed to update lawyer status: " ++ error)) w = (r, w') ->
  (r = Ok success /\
   exists i st u,
     id = JStr i /\ status = JStr st /\ find_user i (db w) = Some u /\
     dbError req c = None /\
     db w' = update_users i (set_verificationStatus st) (db w) /\
     revalidated w' = (revalidated w ++ ["/admin"])%list) \/
  (exists cause,
     r = Throw ("Failed to update lawyer status: " ++ cause) /\
     db w' = db w /\ revalidated w' = revalidated w).
Proof.
  unfold try_catch, bind, db_call.
  destruct (dbError req c) as [msg|] eqn:He.
  - simpl. intros H. inversion H; subst. right. exists msg. auto.
  - destruct (user_update_status_cases id status (db w))
      as [(i & st & u & -> & -> & Hf & Hq) | (e & Hq)]; rewrite Hq; simpl.
    + intros H. inversion H; subst. left. split; [reflexivity|].
      exists i, st, u. repeat split; auto.
    + intros H. inversion H; subst. right. exists e. auto.
Qed.

Lemma updateLawyerStatus_cases (req : Request) (formData : FormData)
    (w : World) (r : Result JsValue) (w' : World) :
  updateLawyerStatus req formData w = (r, w') ->
  (r = Ok success /\
   exists id st u,
     formData_get formData "lawyerId" = JStr id /\ id <> "" /\
     formData_get formData "status" = JStr st /\
     (st = "VERIFIED" \/ st = "REJECTED") /\
     find_user id (db w) = Some u /\
     resolves_to_admin req (db w) /\
     db w' = update_users id (set_verificationStatus st) (db w) /\
     revalidated w' = (revalidated w ++ ["/admin"])%list) \/
  (exists e,
     r = Throw e /\
     (e = "Unauthorized" \/ e = "Invalid input" \/
      (exists cause, e = "Failed to update lawyer status: " ++ cause) \/
      auth_userId req = Throw e) /\
     db w' = db w /\ revalidated w' = revalidated w).
Proof.
  intros H.
  unfold updateLawyerStatus in H. unfold bind at 1 in H.
  destruct (verifyAdmin_cases req w)
    as [(m & Ha & Hv) | (_ & b & w1 & Hv & Hdb & Hrev & Hw & Hb)];
    rewrite Hv in H.
  { inversion H; subst. right. exists m. auto 6. }
  destruct b; simpl negb in H; cbv iota in H.
  2:{ inversion H; subst. right. exists "Unauthorized". auto. }
  rewrite (Hw eq_refl) in H.
  destruct (truthy (formData_get formData "lawyerId")) eqn:Ht;
    cbn [negb orb] in H; cbv iota in H.
  2:{ inversion H; subst. right. exists "Invalid input". auto. }
  destruct (includes ["VERIFIED"; "REJECTED"] (formData_get formData "status"))
    eqn:Hi; cbn [negb orb] in H; cbv iota in H.
  2:{ inversion H; subst. right. exists "Invalid input". auto. }
  apply update_block_cases in H.
  destruct H as [(-> & i & st & u & Hid & Hst & Hf & _ & Hdb' & Hrev')
                | (cause & -> & Hdb' & Hrev')].
  - left. split; [reflexivity|]. exists i, st, u.
    destruct (includes_status_inv _ Hi) as (st' & Hst' & Hin).
    rewrite Hst in Hst'. injection Hst' as <-.
    repeat split; auto.
    + intros ->. rewrite Hid in Ht. discriminate.
    + apply Hb. reflexivity.
  - right. eexists. repeat split; eauto 6.
Qed.

Lemma updateLawyerActiveStatus_cases (req : Request) (formData : FormData)
    (w : World) (r : Result JsValue) (w' : World) :
  updateLawyerActiveStatus req formData w = (r, w') ->
  (r = Ok success /\
   exists id u,
     formData_get formData "lawyerId" = JStr id /\ id <> "" /\
     find_user id (db w) = Some u /\
     resolves_to_admin req (db w) /\
     db w' = update_users id
               (set_verificationStatus
                  (if strict_eq_str (formData_get formData "suspend") "true"
                   then "PENDING" else "VERIFIED")) (db w) /\
     revalidated w' = (revalidated w ++ ["/admin"])%list) \/
  (exists e,
     r = Throw e /\
     (e = "Unauthorized" \/ e = "LAWYER ID is required" \/
      (exists cause, e = "Failed to update lawyer status: " ++ cause) \/
      auth_userId req = Throw e) /\
     db w' = db w /\ revalidated w' = revalidated w).
Proof.
  intros H.
  unfold updateLawyerActiveStatus in H. unfold bind at 1 in H.
  destruct (verifyAdmin_cases req w)
    as [(m & Ha & Hv) | (_ & b & w1 & Hv & Hdb & Hrev & Hw & Hb)];
    rewrite Hv in H.
  { inversion H; subst. right. exists m. auto 6. }
  destruct b; simpl negb in H; cbv iota in H.
  2:{ inversion H; subst. right. exists "Unauthorized". auto. }
  rewrite (Hw eq_refl) in H.
  destruct (truthy (formData_get formData "lawyerId")) eqn:Ht; simpl negb in H;
    cbv beta iota zeta in H.
  2:{ inversion H; subst. right. exists "LAWYER ID is required". auto. }
  apply update_block_cases in H.
  destruct H as [(-> & i & st & u & Hid & Hst & Hf & _ & Hdb' & Hrev')
                | (cause & -> & Hdb' & Hrev')].
  - left. split; [reflexivity|]. exists i, u.
    injection Hst as <-.
    repeat split; auto.
    + intros ->. rewrite Hid in Ht. discriminate.
    + apply Hb. reflexivity.
  - right. eexists. repeat split; eauto 6.
Qed.

(** X7.  [updateLawyerStatus] succeeds only as intended, and fails without
    effect.  When it returns, the caller is an administrator, [lawyerId] is
    a non-empty string naming a stored user and [status] is VERIFIED or
    REJECTED; exactly that status has been written to that user and [/admin]
    has been invalidated once.  Whenever it throws, whatever the error, the
    store is unchanged and nothing has been invalidated. *)
Theorem updateLawyerStatus_outcomes (req : Request) (formData : FormData)
    (w : World) (r : Result JsValue) (w' : World) :
  updateLawyerStatus req formData w = (r, w') ->
  (r = Ok success /\
   exists id st u,
     formData_get formData "lawyerId" = JStr id /\ id <> "" /\
     formData_get formData "status" = JStr st /\
     (st = "VERIFIED" \/ st = "REJECTED") /\
     find_user id (db w) = Some u /\
     resolves_to_admin req (db w) /\
     db w' = update_users id (set_verificationStatus st) (db w) /\
     revalidated w' = (revalidated w ++ ["/admin"])%list) \/
  (exists e,
     r = Throw e /\ db w' = db w /\ revalidated w' = revalidated w).
Proof.
  intros H. apply updateLawyerStatus_cases in H.
  destruct H as [H | (e & He & _ & Hdb & Hrev)]; [left; exact H|].
  right. exists e. auto.
Qed.

(** X8.  [updateLawyerActiveStatus] succeeds only as intended, and fails
    without effect.  When it returns, the caller is an administrator and
    [lawyerId] is a non-empty string naming a stored user; the status
    written to that user is PENDING when [suspend] is the string "true" and
    VERIFIED otherwise, and [/admin] has been invalidated once.  Whenever it
    throws, whatever the error, the store is unchanged and nothing has been
    invalidated. *)
Theorem updateLawyerActiveStatus_outcomes (req : Request) (formData : FormData)
    (w : World) (r : Result JsValue) (w' : World) :
  updateLawyerActiveStatus req formData w = (r, w') ->
  (r = Ok success /\
   exists id u,
     formData_get formData "lawyerId" = JStr id /\ id <> "" /\
     find_user id (db w) = Some u /\
     resolves_to_admin req (db w) /\
     db w' = update_users id
               (set_verificationStatus
                  (if strict_eq_str (formData_get formData "suspend") "true"
                   then "PENDING" else "VERIFIED")) (db w) /\
     revalidated w' = (revalidated w ++ ["/admin"])%list) \/
  (exists e,
     r = Throw e /\ db w' = db w /\ revalidated w' = revalidated w).
Proof.
  intros H. apply updateLawyerActiveStatus_cases in H.
  destruct H as [H | (e & He & _ & Hdb & Hrev)]; [left; exact H|].
  right. exists e. auto.
Qed.

Lemma same_account_set_verificationStatus (st : string) (u : User) :
  same_account u (set_verificationStatus st u).
Proof. repeat split. Qed.

Lemma same_account_refl (u : User) : same_account u u.
Proof. repeat split. Qed.

Lemma update_users_frame (id st : string) (s : Store) :
  payouts (update_users id (set_verificationStatus st) s) = payouts s /\
  creditTransactions (update_users id (set_verificationStatus st) s)
  = creditTransactions s /\
  Forall2 same_account (users s)
    (users (update_users id (set_verificationStatus st) s)) /\
  (forall u, In u (users s) -> user_id u <> id ->
             In u (users (update_users id (set_verificationStatus st) s))).
Proof.
  repeat split.
  - unfold update_users. simpl.
    induction (users s) as [|u l IH]; simpl; constructor; [|exact IH].
    destruct (user_id u =? id)%string;
      [apply same_account_set_verificationStatus | apply same_account_refl].
  - intros u Hin Hne. unfold update_users. simpl.
    apply in_map_iff. exists u. split; [|exact Hin].
    apply String.eqb_neq in Hne. rewrite Hne. reflexivity.
Qed.

Lemma store_frame_refl (s : Store) :
  payouts s = payouts s /\
  creditTransactions s = creditTransactions s /\
  Forall2 same_account (users s) (users s) /\
  (forall u, In u (users s) -> In u (users s)).
Proof.
  repeat split; auto.
  induction (users s); constructor; [apply same_account_refl | assumption].
Qed.

Lemma same_accounts_find (uid : string) (l l' : list User) :
  Forall2 same_account l l' ->
  (forall u, find (by_clerkUserId uid) l = Some u ->
     exists u', find (by_clerkUserId uid) l' = Some u' /\
                user_role u' = user_role u) /\
  (forall u', find (by_clerkUserId uid) l' = Some u' ->
     exists u, find (by_clerkUserId uid) l = Some u /\
               user_role u' = user_role u).
Proof.
  induction 1 as [|x y l l' Hxy _ [IH1 IH2]]; simpl.
  - split; intros u H; discriminate.
  - assert (Hc : by_clerkUserId uid y = by_clerkUserId uid x).
    { unfold by_clerkUserId. destruct Hxy as (_ & -> & _). reflexivity. }
    rewrite Hc. destruct (by_clerkUserId uid x).
    + split; intros u H; inversion H; subst; eexists; split;
        try reflexivity; apply Hxy.
    + split; assumption.
Qed.

Lemma resolves_to_admin_same_accounts (req : Request) (s s' : Store) :
  Forall2 same_account (users s) (users s') ->
  resolves_to_admin req s <-> resolves_to_admin req s'.
Proof.
  intros HF. split; intros (uid & u & Ha & Hne & He & Hf & Hr).
  - destruct (proj1 (same_accounts_find uid _ _ HF) u Hf) as (u' & Hf' & Hr').
    exists uid, u'. repeat split; auto. congruence.
  - destruct (proj2 (same_accounts_find uid _ _ HF) u Hf) as (u' & Hf' & Hr').
    exists uid, u'. repeat split; auto. congruence.
Qed.

(** The store after either status update: as before, or with one status
    written to the users named by [lawyerId]. *)
Lemma status_update_db_cases (req : Request) (formData : FormData)
    (w : World) (r : Result JsValue) (w' : World) :
  updateLawyerStatus req formData w = (r, w') \/
  updateLawyerActiveStatus req formData w = (r, w') ->
  db w' = db w \/
  exists id st,
    formData_get formData "lawyerId" = JStr id /\
    db w' = update_users id (set_verificationStatus st) (db w).
Proof.
  intros [H|H].
  - apply updateLawyerStatus_cases in H.
    destruct H as [(_ & id & st & u & Hid & _ & _ & _ & _ & _ & Hdb & _)
                  | (e & _ & _ & Hdb & _)]; eauto.
  - apply updateLawyerActiveStatus_cases in H.
    destruct H as [(_ & id & u & Hid & _ & _ & _ & Hdb & _)
                  | (e & _ & _ & Hdb & _)]; eauto.
Qed.

(** X9.  Whatever their outcome, [updateLawyerStatus] and
    [updateLawyerActiveStatus] leave payouts and ledger as they were and
    change no column of any user other than the verification status: ids,
    identities, roles, credit balances, names, emails, specialties and
    creation dates are kept, row by row, and the rows of users not named by
    [lawyerId] are kept unchanged. *)
Theorem status_updates_touch_only_the_status (req : Request)
    (formData : FormData) (w : World) (r : Result JsValue) (w' : World) :
  updateLawyerStatus req formData w = (r, w') \/
  updateLawyerActiveStatus req formData w = (r, w') ->
  payouts (db w') = payouts (db w) /\
  creditTransactions (db w') = creditTransactions (db w) /\
  Forall2 same_account (users (db w)) (users (db w')) /\
  (forall u, In u (users (db w)) ->
             formData_get formData "lawyerId" <> JStr (user_id u) ->
             In u (users (db w'))).
Proof.
  intros H. apply status_update_db_cases in H.
  destruct H as [-> | (id & st & Hid & ->)].
  - destruct (store_frame_refl (db w)) as (H1 & H2 & H3 & H4). auto.
  - destruct (update_users_frame id st (db w)) as (H1 & H2 & H3 & H4).
    repeat split; auto.
    intros u Hin Hne. apply H4; [exact Hin|].
    intros <-. apply Hne. exact Hid.
Qed.

(** X10.  Neither status update grants or revokes administrator rights:
    whatever the outcome, and whoever was suspended or rejected (an
    administrator included), a caller resolves to an administrator after the
    call exactly when it did before. *)
Theorem status_updates_keep_admin_rights (req : Request) (formData : FormData)
    (w : World) (r : Result JsValue) (w' : World) (caller : Request) :
  updateLawyerStatus req formData w = (r, w') \/
  updateLawyerActiveStatus req formData w = (r, w') ->
  resolves_to_admin caller (db w) <-> resolves_to_admin caller (db w').
Proof.
  intros H. apply resolves_to_admin_same_accounts.
  apply status_update_db_cases in H.
  destruct H as [-> | (id & st & Hid & ->)].
  - apply store_frame_refl.
  - apply update_users_frame.
Qed.

Lemma update_users_twice (id st1 st2 : string) (s : Store) :
  update_users id (set_verificationStatus st2)
    (update_users id (set_verificationStatus st1) s)
  = update_users id (set_verificationStatus st2) s.
Proof.
  unfold update_users. simpl. f_equal.
  rewrite map_map. apply map_ext. intros u.
  destruct (user_id u =? id)%string eqn:E; simpl; rewrite E; reflexivity.
Qed.

(** X11.  The later of two status updates wins.  When two administrators in
    turn set the status of the same existing provider with
    [updateLawyerStatus], both calls succeed and the store is the one the
    second call alone would have produced; repeating the same update
    changes nothing further. *)
Theorem updateLawyerStatus_last_write_wins (req1 req2 : Request)
    (form1 form2 : FormData) (id st1 st2 : string) (u : User) (w : World) :
  resolves_to_admin req1 (db w) ->
  resolves_to_admin req2 (db w) ->
  dbError req1 LawyerStatus_update = None ->
  dbError req2 LawyerStatus_update = None ->
  formData_get form1 "lawyerId" = JStr id ->
  formData_get form2 "lawyerId" = JStr id ->
  id <> "" ->
  formData_get form1 "status" = JStr st1 ->
  formData_get form2 "status" = JStr st2 ->
  st1 = "VERIFIED" \/ st1 = "REJECTED" ->
  st2 = "VERIFIED" \/ st2 = "REJECTED" ->
  find_user id (db w) = Some u ->
  exists w1 w2 w2',
    updateLawyerStatus req1 form1 w = (Ok success, w1) /\
    updateLawyerStatus req2 form2 w1 = (Ok success, w2) /\
    updateLawyerStatus req2 form2 w = (Ok success, w2') /\
    db w2 = db w2' /\
    verificationStatus_of id (db w2) = Some st2 /\
    (st1 = st2 -> db w2 = db w1).
Proof.
  intros Ha1 Ha2 He1 He2 Hid1 Hid2 Hne Hs1 Hs2 Hv1 Hv2 Hf.
  pose proof (updateLawyerStatus_run req1 form1 id st1 u w
                Ha1 He1 Hid1 Hne Hs1 Hv1 Hf) as R1.
  pose proof (updateLawyerStatus_run req2 form2 id st2 u w
                Ha2 He2 Hid2 Hne Hs2 Hv2 Hf) as R2'.
  set (w1 := mkWorld (update_users id (set_verificationStatus st1) (db w))
                     (revalidated w ++ ["/admin"]) (console w)) in *.
  assert (Hf1 : find_user id (db w1) = Some (set_verificationStatus st1 u)).
  { simpl. rewrite find_user_update_users by reflexivity.
    rewrite Hf. reflexivity. }
  assert (Ha21 : resolves_to_admin req2 (db w1))
    by (simpl; apply resolves_to_admin_update_users, Ha2).
  pose proof (updateLawyerStatus_run req2 form2 id st2 _ w1
                Ha21 He2 Hid2 Hne Hs2 Hv2 Hf1) as R2.
  eexists w1, _, _. split; [exact R1|]. split; [exact R2|].
  split; [exact R2'|]. simpl. split; [|split].
  - apply update_users_twice.
  - rewrite update_users_twice.
    apply (verificationStatus_of_update id st2 u), Hf.
  - intros ->. apply update_users_twice.
Qed.

Lemma updateLawyerStatus_admin_block (req : Request) (formData : FormData)
    (w : World) :
  resolves_to_admin req (db w) ->
  truthy (formData_get formData "lawyerId") = true ->
  includes ["VERIFIED"; "REJECTED"] (formData_get formData "status") = true ->
  updateLawyerStatus req formData w
  = try_catch
      (db_call req LawyerStatus_update
         (user_update_status (formData_get formData "lawyerId")
            (formData_get formData "status")) ;;;
       revalidatePath "/admin" ;;;
       ret success)
      (fun error =>
         console_error "Failed to update lawyer status:" error ;;;
         throw ("Failed to update lawyer status: " ++ error)) w.
Proof.
  intros Hadm Ht Hi. unfold updateLawyerStatus.
  match goal with |- bind _ ?f _ = _ =>
    change (bind (verifyAdmin req) f w) with (gated req (f true) w) end.
  rewrite resolves_gated by assumption. cbv beta.
  rewrite Ht, Hi. reflexivity.
Qed.

Lemma updateLawyerActiveStatus_admin_block (req : Request)
    (formData : FormData) (w : World) :
  resolves_to_admin req (db w) ->
  truthy (formData_get formData "lawyerId") = true ->
  updateLawyerActiveStatus req formData w
  = try_catch
      (db_call req ActiveStatus_update
         (user_update_status (formData_get formData "lawyerId")
            (JStr (if strict_eq_str (formData_get formData "suspend") "true"
                   then "PENDING" else "VERIFIED"))) ;;;
       revalidatePath "/admin" ;;;
       ret success)
      (fun error =>
         console_error "Failed to update lawyer active status:" error ;;;
         throw ("Failed to update lawyer status: " ++ error)) w.
Proof.
  intros Hadm Ht. unfold updateLawyerActiveStatus.
  match goal with |- bind _ ?f _ = _ =>
    change (bind (verifyAdmin req) f w) with (gated req (f true) w) end.
  rewrite resolves_gated by assumption. cbv beta.
  rewrite Ht. reflexivity.
Qed.

(** X12.  For an administrator, a [lawyerId] that names no user, or that is
    an uploaded file, passes the presence check; both status updates then
    fail in the store and throw "Failed to update lawyer status: ..." with
    the store unchanged and nothing invalidated. *)
Theorem status_update_unknown_provider (req : Request) (formData : FormData)
    (w : World) :
  resolves_to_admin req (db w) ->
  (exists id, formData_get formData "lawyerId" = JStr id /\ id <> "" /\
              find_user id (db w) = None) \/
  (exists fileName,
     formData_get formData "lawyerId" = entry_value (FFile fileName)) ->
  (includes ["VERIFIED"; "REJECTED"] (formData_get formData "status") = true ->
   exists cause w',
     updateLawyerStatus req formData w
     = (Throw ("Failed to update lawyer status: " ++ cause), w') /\
     db w' = db w /\ revalidated w' = revalidated w) /\
  (exists cause w',
     updateLawyerActiveStatus req formData w
     = (Throw ("Failed to update lawyer status: " ++ cause), w') /\
     db w' = db w /\ revalidated w' = revalidated w).
Proof.
  intros Hadm Hid.
  assert (Ht : truthy (formData_get formData "lawyerId") = true).
  { destruct Hid as [(id & -> & Hne & _) | (n & ->)];
      [apply truthy_JStr, Hne | reflexivity]. }
  assert (Hno : forall i u, formData_get formData "lawyerId" = JStr i ->
                            find_user i (db w) = Some u -> False).
  { intros i u Hi Hf.
    destruct Hid as [(id & Hid & _ & Hnone) | (n & Hfile)].
    - rewrite Hid in Hi. injection Hi as <-. congruence.
    - rewrite Hfile in Hi. discriminate. }
  split.
  - intros Hi.
    rewrite (updateLawyerStatus_admin_block req formData w Hadm Ht Hi).
    match goal with |- exists cause w', ?m = _ /\ _ =>
      destruct m as [r w'] eqn:E end.
    apply update_block_cases in E.
    destruct E as [(_ & i & st & u & Hi' & _ & Hf & _) | (cause & -> & H1 & H2)].
    + exfalso. exact (Hno i u Hi' Hf).
    + exists cause, w'. auto.
  - rewrite (updateLawyerActiveStatus_admin_block req formData w Hadm Ht).
    match goal with |- exists cause w', ?m = _ /\ _ =>
      destruct m as [r w'] eqn:E end.
    apply update_block_cases in E.
    destruct E as [(_ & i & st & u & Hi' & _ & Hf & _) | (cause & -> & H1 & H2)].
    + exfalso. exact (Hno i u Hi' Hf).
    + exists cause, w'. auto.
Qed.

(** X13.  For an administrator, a missing id (no field, or an empty string)
    is refused before the store is reached, leaving the whole world
    untouched (not even a log line): [updateLawyerActiveStatus] throws
    "LAWYER ID is required" whatever [suspend] is, and [approvePayout]
    throws "Payout ID is required". *)
Theorem missing_id_rejected (ownerKey : string) (req : Request)
    (formData : FormData) (w : World) :
  resolves_to_admin req (db w) ->
  (formData_get formData "lawyerId" = JNull \/
   formData_get formData "lawyerId" = JStr "" ->
   updateLawyerActiveStatus req formData w
   = (Throw "LAWYER ID is required", w)) /\
  (formData_get formData "payoutId" = JNull \/
   formData_get formData "payoutId" = JStr "" ->
   approvePayout ownerKey req formData w = (Throw "Payout ID is required", w)).
Proof.
  intros Hadm. split; intros Hid.
  - unfold updateLawyerActiveStatus.
    match goal with |- bind _ ?f _ = _ =>
      change (bind (verifyAdmin req) f w) with (gated req (f true) w) end.
    rewrite resolves_gated by assumption. cbv beta.
    destruct Hid as [-> | ->]; reflexivity.
  - unfold approvePayout.
    match goal with |- bind _ ?f _ = _ =>
      change (bind (verifyAdmin req) f w) with (gated req (f true) w) end.
    rewrite resolves_gated by assumption. cbv beta.
    destruct Hid as [-> | ->]; reflexivity.
Qed.

(** X14.  Unlike the listings, the writing actions hand the store's own
    error message to the caller: for an administrator and present, valid
    inputs, a store failure with message [m] on the write of a status
    update surfaces as "Failed to update lawyer status: m", and one on the
    first lookup of [approvePayout] as "Failed to approve payout: m"; the
    store is unchanged. *)
Theorem store_error_message_reaches_caller (ownerKey : string)
    (req : Request) (formData : FormData) (w : World) (m : string) :
  resolves_to_admin req (db w) ->
  (truthy (formData_get formData "lawyerId") = true ->
   includes ["VERIFIED"; "REJECTED"] (formData_get formData "status") = true ->
   dbError req LawyerStatus_update = Some m ->
   fails_without_mutation ("Failed to update lawyer status: " ++ m) w
     (updateLawyerStatus req formData w)) /\
  (truthy (formData_get formData "lawyerId") = true ->
   dbError req ActiveStatus_update = Some m ->
   fails_without_mutation ("Failed to update lawyer status: " ++ m) w
     (updateLawyerActiveStatus req formData w)) /\
  (truthy (formData_get formData "payoutId") = true ->
   dbError req Approve_findAdmin = Some m ->
   fails_without_mutation ("Failed to approve payout: " ++ m) w
     (approvePayout ownerKey req formData w)).
Proof.
  intros Hadm. split; [|split].
  - intros Ht Hi He.
    rewrite (updateLawyerStatus_admin_block req formData w Hadm Ht Hi).
    unfold try_catch, bind, db_call. rewrite He. split; reflexivity.
  - intros Ht He.
    rewrite (updateLawyerActiveStatus_admin_block req formData w Hadm Ht).
    unfold try_catch, bind, db_call. rewrite He. split; reflexivity.
  - intros Ht He. unfold approvePayout.
    match goal with |- context [bind _ ?f w] =>
      change (bind (verifyAdmin req) f w) with (gated req (f true) w) end.
    rewrite resolves_gated by assumption. cbv beta.
    rewrite Ht. cbn [negb]. cbv beta iota zeta.
    destruct Hadm as (uid & u & Hauth & _).
    unfold try_catch, bind, db_call, auth, lift. rewrite He, Hauth.
    split; reflexivity.
Qed.

(* ================================================================== *)
(** ** Further properties: the approval *)

Lemma preserves_on_throw_bind {A B C} (f : World -> C) (m : M A) (k : A -> M B) :
  preserves f m -> (forall a, preserves_on_throw f (k a)) ->
  preserves_on_throw f (bind m k).
Proof.
  intros Hm Hk w e w'. unfold bind.
  destruct (m w) as [[a|e'] w1] eqn:E; intros H.
  - rewrite (Hk a _ _ _ H). apply (Hm _ _ _ E).
  - inversion H; subst. apply (Hm _ _ _ E).
Qed.

Lemma preserves_on_throw_then_returns {A B C} (f : World -> C) (m : M A)
    (k : A -> M B) :
  preserves_on_throw f m -> (forall a, always_returns (k a)) ->
  preserves_on_throw f (bind m k).
Proof.
  intros Hm Hk w e w'. unfold bind.
  destruct (m w) as [[a|e'] w1] eqn:E; intros H.
  - destruct (Hk a w1) as (b & w2 & Hb). rewrite Hb in H. discriminate.
  - inversion H; subst. apply (Hm _ _ _ E).
Qed.

Lemma preserves_on_throw_try_catch {A C} (f : World -> C) (m : M A)
    (h : string -> M A) :
  preserves_on_throw f m -> (forall e, preserves f (h e)) ->
  preserves_on_throw f (try_catch m h).
Proof.
  intros Hm Hh w e w'. unfold try_catch.
  destruct (m w) as [[a|e'] w1] eqn:E; intros H.
  - discriminate.
  - rewrite (Hh e' _ _ _ H). apply (Hm _ _ _ E).
Qed.

Lemma preserves_revalidated_transaction {A} (req : Request) (body : M A) :
  preserves revalidated body -> preserves revalidated (transaction req body).
Proof.
  intros Hb w r w'. unfold transaction.
  destruct (body w) as [[a|e] w1] eqn:E.
  - destruct (dbError req Tx_commit); intros H; inversion H; subst;
      apply (Hb _ _ _ E).
  - intros H; inversion H; subst. apply (Hb _ _ _ E).
Qed.

Lemma preserves_revalidated_approveTransaction (req : Request)
    (payoutId admin payout : JsValue) :
  preserves revalidated (approveTransaction req payoutId admin payout).
Proof.
  unfold approveTransaction.
  apply preserves_revalidated_transaction.
  repeat (apply preserves_bind; [auto with world_frame | intros ?]).
  auto with world_frame.
Qed.

Lemma approvePayout_keeps_revalidated_on_throw (ownerKey : string)
    (req : Request) (formData : FormData) :
  preserves_on_throw revalidated (approvePayout ownerKey req formData).
Proof.
  unfold approvePayout.
  apply preserves_on_throw_bind; [auto with world_frame|].
  intros [|]; simpl; [|apply preserves_weaken; auto with world_frame].
  destruct (negb (truthy (formData_get formData "payoutId")));
    [apply preserves_weaken; auto with world_frame|].
  apply preserves_on_throw_try_catch.
  2:{ intros e. apply preserves_bind; auto with world_frame. }
  apply preserves_on_throw_bind; [unfold auth; auto with world_frame|].
  intros userId.
  apply preserves_on_throw_bind; [auto with world_frame|]. intros admin.
  apply preserves_on_throw_bind; [auto with world_frame|]. intros payout.
  destruct (negb (truthy payout));
    [apply preserves_weaken; auto with world_frame|].
  apply preserves_on_throw_bind; [auto with world_frame|]. intros doctor.
  apply preserves_on_throw_bind; [auto with world_frame|]. intros dc.
  apply preserves_on_throw_bind; [auto with world_frame|]. intros pc.
  destruct (js_lt dc pc); [apply preserves_weaken; auto with world_frame|].
  apply preserves_on_throw_then_returns.
  - apply preserves_weaken, preserves_revalidated_approveTransaction.
  - intros u w. eexists _, _. reflexivity.
Qed.

(** No call of [approvePayout] returns: whichever name the foreign-key
    column has, the payout object of line 202 lacks [doctor] or lacks
    [doctorId]. *)
Lemma approvePayout_never_returns (ownerKey : string) (req : Request)
    (formData : FormData) (w : World) (v : JsValue) (w' : World) :
  approvePayout ownerKey req formData w <> (Ok v, w').
Proof.
  intros H. unfold approvePayout in H.
  apply bind_ok_inv in H. destruct H as (b & w1 & _ & H).
  destruct b; simpl in H; [|discriminate].
  destruct (negb (truthy (formData_get formData "payoutId")));
    [discriminate|].
  unfold try_catch in H.
  match type of H with
  | context [bind ?m ?k w1] => destruct (bind m k w1) as [[v0|e] w2] eqn:E
  end.
  2:{ unfold bind, console_error, throw in H. discriminate. }
  clear H.
  apply bind_ok_inv in E. destruct E as (userId & w0 & _ & E).
  apply bind_ok_inv in E. destruct E as (admin & w3 & _ & E).
  apply bind_ok_inv in E. destruct E as (payout & w4 & Hq & E).
  apply db_call_ok_inv in Hq. destruct Hq as (s & Hq & ->).
  unfold payout_findUnique, reading in Hq.
  destruct (formData_get formData "payoutId") as [| | | | |pid| | |];
    try discriminate.
  injection Hq as <- <-.
  destruct (find_payout pid "PROCESSING" (db w3)) as [p|];
    cbn [nullable] in E; [|discriminate].
  change (truthy (payout_obj ownerKey user_obj (db w3) p)) with true in E.
  cbn [negb] in E.
  apply bind_ok_inv in E. destruct E as (doctor & w5 & Hd & E).
  apply lift_ok_inv in Hd. destruct Hd as [Hd ->].
  apply bind_ok_inv in E. destruct E as (dc & w6 & Hdc & E).
  apply lift_ok_inv in Hdc. destruct Hdc as [Hdc ->].
  apply bind_ok_inv in E. destruct E as (pc & w7 & _ & E).
  destruct (js_lt dc pc); [discriminate|].
  apply bind_ok_inv in E. destruct E as ([] & w8 & Htx & _).
  apply approveTransaction_commits in Htx.
  destruct Htx as (_ & _ & owner & _ & _ & _ & Hk & _).
  simpl in Hd, Hk.
  destruct (ownerKey =? "doctor")%string eqn:Ek.
  - apply String.eqb_eq in Ek. subst ownerKey. simpl in Hk. discriminate.
  - injection Hd as <-. simpl in Hdc. discriminate.
Qed.

(** X15.  As written, [approvePayout] never succeeds.  Whatever the caller,
    the form, the store and the name of the foreign-key column, the call
    throws, the store is unchanged and [/admin] is not invalidated: no
    payout is ever marked PROCESSED, no balance decremented and no ledger
    row written through this action. *)
Theorem approvePayout_never_succeeds (ownerKey : string) (req : Request)
    (formData : FormData) (w : World) :
  exists e w',
    approvePayout ownerKey req formData w = (Throw e, w') /\
    db w' = db w /\ revalidated w' = revalidated w.
Proof.
  destruct (approvePayout ownerKey req formData w) as [[v|e] w'] eqn:E.
  - exfalso. exact (approvePayout_never_returns _ _ _ _ _ _ E).
  - exists e, w'. split; [reflexivity|]. split.
    + exact (approvePayout_keeps_store_on_throw _ _ _ _ _ _ E).
    + exact (approvePayout_keeps_revalidated_on_throw _ _ _ _ _ _ E).
Qed.

Lemma db_call_ok_inv_full {A} (req : Request) (c : DbCall)
    (q : Store -> Result A * Store) (w w' : World) (a : A) :
  db_call req c q w = (Ok a, w') ->
  dbError req c = None /\ exists s, q (db w) = (Ok a, s) /\ w' = set_db w s.
Proof.
  unfold db_call. destruct (dbError req c); [discriminate|].
  destruct (q (db w)) as [r s]. intros H. inversion H; subst. eauto.
Qed.

Lemma transaction_ok_inv_full {A} (req : Request) (body : M A) (w w' : World)
    (a : A) :
  transaction req body w = (Ok a, w') ->
  body w = (Ok a, w') /\ dbError req Tx_commit = None.
Proof.
  unfold transaction. destruct (body w) as [[a'|e] w1]; [|discriminate].
  destruct (dbError req Tx_commit); [discriminate|]. intros H. auto.
Qed.

Lemma payout_update_ok_inv_full (id by_ : JsValue) (status : string) (at_ : Z)
    (s s' : Store) :
  payout_update id status at_ by_ s = (Ok tt, s') ->
  exists i p, id = JStr i /\
              find (fun p => (payout_id p =? i)%string) (payouts s) = Some p.
Proof.
  unfold payout_update.
  destruct id; try discriminate. destruct by_; try discriminate.
  destruct (find _ _) eqn:E; [|discriminate]. eauto.
Qed.

Lemma user_update_decrement_ok_inv_full (id amount : JsValue) (s s' : Store) :
  user_update_decrement id amount s = (Ok tt, s') ->
  exists i u, id = JStr i /\ find_user i s = Some u.
Proof.
  unfold user_update_decrement.
  destruct id; try discriminate. destruct amount; try discriminate.
  destruct (find_user _ _) eqn:E; [|discriminate]. eauto.
Qed.

Lemma payout_update_run (req : Request) (pid by_ : string) (status : string)
    (at_ : Z) (p : Payout) (w : World) :
  dbError req Tx_payoutUpdate = None ->
  find (fun p => (payout_id p =? pid)%string) (payouts (db w)) = Some p ->
  db_call req Tx_payoutUpdate (payout_update (JStr pid) status at_ (JStr by_)) w
  = (Ok tt,
     set_db w
       (mkStore (users (db w))
          (map (fun p => if (payout_id p =? pid)%string
                         then mark_processed status at_ by_ p else p)
               (payouts (db w)))
          (creditTransactions (db w)))).
Proof.
  intros He Hf. unfold db_call, payout_update. rewrite He, Hf. reflexivity.
Qed.

Lemma user_update_decrement_run (req : Request) (owner : string) (amount : Z)
    (u : User) (w : World) :
  dbError req Tx_userUpdate = None ->
  find_user owner (db w) = Some u ->
  db_call req Tx_userUpdate
    (user_update_decrement (JStr owner) (JNum amount)) w
  = (Ok tt, set_db w (update_users owner (decrement_credits amount) (db w))).
Proof.
  intros He Hf. unfold db_call, user_update_decrement. rewrite He, Hf.
  reflexivity.
Qed.

Lemma creditTransaction_create_run (req : Request) (owner : string) (n : Z)
    (type : string) (u : User) (w : World) :
  dbError req Tx_creditTransactionCreate = None ->
  find_user owner (db w) = Some u ->
  db_call req Tx_creditTransactionCreate
    (creditTransaction_create (JStr owner) (JNum n) type) w
  = (Ok tt,
     set_db w
       (mkStore (users (db w)) (payouts (db w))
          (creditTransactions (db w) ++ [mkCreditTransaction owner n type]))).
Proof.
  intros He Hf. unfold db_call, creditTransaction_create. rewrite He, Hf.
  reflexivity.
Qed.

(** The exact condition under which the transaction of lines 222-255
    commits, and the world it leaves. *)
Lemma approveTransaction_commit_char (req : Request)
    (payoutId admin payout : JsValue) (w w' : World) :
  approveTransaction req payoutId admin payout w = (Ok tt, w') <->
  exists pid by_ owner amount p u,
    payoutId = JStr pid /\
    js_or (get_prop_opt admin "id") (JStr "unknown") = JStr by_ /\
    get_prop payout "doctorId" = Ok (JStr owner) /\
    get_prop payout "credits" = Ok (JNum amount) /\
    find (fun p => (payout_id p =? pid)%string) (payouts (db w)) = Some p /\
    find_user owner (db w) = Some u /\
    dbError req Tx_payoutUpdate = None /\
    dbError req Tx_userUpdate = None /\
    dbError req Tx_creditTransactionCreate = None /\
    dbError req Tx_commit = None /\
    w' = mkWorld (approval_applied pid by_ owner amount (now req) (db w))
                 (revalidated w) (console w).
Proof.
  split.
  - intros H.
    destruct (approveTransaction_commits _ _ _ _ _ _ H)
      as (pid & by_ & owner & amount & -> & Hby & G2 & G3 & Hdb).
    unfold approveTransaction in H.
    apply transaction_ok_inv_full in H. destruct H as [H Hc].
    apply bind_ok_inv in H. destruct H as ([] & w1 & H1 & H).
    apply bind_ok_inv in H. destruct H as (doctorId & w2 & H2 & H).
    apply bind_ok_inv in H. destruct H as (credits & w3 & H3 & H).
    apply bind_ok_inv in H. destruct H as ([] & w4 & H4 & H).
    apply bind_ok_inv in H. destruct H as (doctorId' & w5 & H5 & H).
    apply bind_ok_inv in H. destruct H as (credits' & w6 & H6 & H).
    apply lift_ok_inv in H2, H3, H5, H6.
    destruct H2 as [K2 ->], H3 as [K3 ->], H5 as [K5 ->], H6 as [K6 ->].
    apply db_call_ok_inv_full in H1, H4, H.
    destruct H1 as (E1 & s1 & Q1 & ->), H4 as (E4 & s4 & Q4 & ->),
             H as (E7 & s7 & Q7 & ->).
    pose proof (payout_update_ok_inv_full _ _ _ _ _ _ Q1) as (i & p & Hi & Hp).
    injection Hi as <-.
    pose proof (payout_update_ok_inv _ _ _ _ _ _ Q1) as (i & b & Hi & _ & ->).
    injection Hi as <-.
    pose proof (user_update_decrement_ok_inv_full _ _ _ _ Q4)
      as (o & u & Ho & Hu).
    rewrite G2 in K2. injection K2 as <-. injection Ho as <-.
    exists pid, by_, owner, amount, p, u.
    repeat split; try assumption.
    simpl in Hdb. unfold set_db. simpl. rewrite Hdb. reflexivity.
  - intros (pid & by_ & owner & amount & p & u & -> & Hby & G2 & G3 & Hp & Hu
            & E1 & E4 & E7 & Ec & ->).
    unfold approveTransaction, transaction. unfold bind at 1.
    rewrite Hby.
    rewrite (payout_update_run req pid by_ "PROCESSED" (now req) p w E1 Hp).
    unfold bind at 1. unfold lift at 1. rewrite G2.
    unfold bind at 1. unfold lift at 1. rewrite G3.
    unfold bind at 1.
    erewrite user_update_decrement_run; [|exact E4|exact Hu].
    unfold bind, lift. cbv beta iota. cbn [js_neg].
    erewrite creditTransaction_create_run; [|exact E7|].
    + rewrite Ec. reflexivity.
    + cbn [db set_db]. rewrite find_user_update_users by reflexivity.
      change (find_user owner _) with (find_user owner (db w)).
      rewrite Hu. reflexivity.
Qed.

(** X16.  When the transaction of lines 222-255 commits.  It returns exactly
    when [payoutId] is the id of a stored payout, [admin?.id || "unknown"]
    is a string, the payout object carries a [doctorId] naming a stored
    user and a numeric [credits], and the store fails on none of the three
    writes nor on the commit; the world is then the one with the three
    writes applied, and nothing else.  Neither the payout's status nor the
    owner's balance is looked at. *)
Theorem approveTransaction_commits_iff (req : Request)
    (payoutId admin payout : JsValue) (w w' : World) :
  approveTransaction req payoutId admin payout w = (Ok tt, w') <->
  exists pid by_ owner amount p u,
    payoutId = JStr pid /\
    js_or (get_prop_opt admin "id") (JStr "unknown") = JStr by_ /\
    get_prop payout "doctorId" = Ok (JStr owner) /\
    get_prop payout "credits" = Ok (JNum amount) /\
    find (fun p => (payout_id p =? pid)%string) (payouts (db w)) = Some p /\
    find_user owner (db w) = Some u /\
    dbError req Tx_payoutUpdate = None /\
    dbError req Tx_userUpdate = None /\
    dbError req Tx_creditTransactionCreate = None /\
    dbError req Tx_commit = None /\
    w' = mkWorld (approval_applied pid by_ owner amount (now req) (db w))
                 (revalidated w) (console w).
Proof. apply approveTransaction_commit_char. Qed.


Lemma find_user_approval_applied (pid by_ owner : string) (amount at_ : Z)
    (s : Store) (id : string) :
  find_user id (approval_applied pid by_ owner amount at_ s)
  = option_map (fun u => if (user_id u =? owner)%string
                         then decrement_credits amount u else u)
      (find_user id s).
Proof.
  unfold find_user, approval_applied. simpl.
  apply find_map_preserved. intros u.
  destruct (user_id u =? owner)%string; reflexivity.
Qed.

Lemma find_payout_by_id_approval_applied (pid by_ owner : string)
    (amount at_ : Z) (s : Store) (p : Payout) :
  find (fun p => (payout_id p =? pid)%string) (payouts s) = Some p ->
  find (fun p => (payout_id p =? pid)%string)
       (payouts (approval_applied pid by_ owner amount at_ s))
  = Some (mark_processed "PROCESSED" at_ by_ p).
Proof.
  intros H. unfold approval_applied. simpl.
  rewrite find_map_preserved.
  - rewrite H. simpl. apply find_some in H. destruct H as [_ H].
    rewrite H. reflexivity.
  - intros q. destruct (payout_id q =? pid)%string eqn:E; simpl; rewrite ?E;
      reflexivity.
Qed.

(** X17.  What a committed approval transaction has done: the payouts with
    the given id are PROCESSED, stamped with the time of the request and
    with the administrator's id (or "unknown"); the owner's balance is
    lower by exactly the requested credits; the ledger has exactly one more
    row, for the owner, of minus that amount and type ADMIN_ADJUSTMENT; the
    other payouts and the other users are untouched, and no path is
    invalidated by the transaction itself. *)
Theorem approveTransaction_effects (req : Request)
    (payoutId admin payout : JsValue) (w w' : World) :
  approveTransaction req payoutId admin payout w = (Ok tt, w') ->
  exists pid by_ owner amount u,
    payoutId = JStr pid /\
    js_or (get_prop_opt admin "id") (JStr "unknown") = JStr by_ /\
    get_prop payout "doctorId" = Ok (JStr owner) /\
    get_prop payout "credits" = Ok (JNum amount) /\
    find_user owner (db w) = Some u /\
    credits_of owner (db w') = Some (user_credits u - amount) /\
    creditTransactions (db w')
    = (creditTransactions (db w)
       ++ [mkCreditTransaction owner (- amount) "ADMIN_ADJUSTMENT"])%list /\
    (forall p, In p (payouts (db w')) -> payout_id p = pid ->
       payout_status p = "PROCESSED" /\
       payout_processedAt p = Some (now req) /\
       payout_processedBy p = Some by_) /\
    (forall p, In p (payouts (db w)) -> payout_id p <> pid ->
       In p (payouts (db w'))) /\
    (forall v, In v (users (db w)) -> user_id v <> owner ->
       In v (users (db w'))) /\
    revalidated w' = revalidated w.
Proof.
  intros H. apply approveTransaction_commit_char in H.
  destruct H as (pid & by_ & owner & amount & p & u & -> & Hby & G2 & G3 & Hp
                 & Hu & _ & _ & _ & _ & ->).
  exists pid, by_, owner, amount, u. cbn [db revalidated].
  repeat split; try assumption.
  - unfold credits_of. rewrite find_user_approval_applied, Hu. simpl.
    unfold find_user in Hu. apply find_some in Hu. destruct Hu as [_ Hu].
    rewrite Hu. reflexivity.
  - unfold approval_applied in H. simpl in H.
    apply in_map_iff in H. destruct H as (q & Hq & _).
    destruct (payout_id q =? pid)%string eqn:E.
    + subst p0. reflexivity.
    + subst p0. apply String.eqb_neq in E. contradiction.
  - unfold approval_applied in H. simpl in H.
    apply in_map_iff in H. destruct H as (q & Hq & _).
    destruct (payout_id q =? pid)%string eqn:E.
    + subst p0. reflexivity.
    + subst p0. apply String.eqb_neq in E. contradiction.
  - unfold approval_applied in H. simpl in H.
    apply in_map_iff in H. destruct H as (q & Hq & _).
    destruct (payout_id q =? pid)%string eqn:E.
    + subst p0. reflexivity.
    + subst p0. apply String.eqb_neq in E. contradiction.
  - intros q Hin Hne. unfold approval_applied. simpl.
    apply in_map_iff. exists q. apply String.eqb_neq in Hne. rewrite Hne. auto.
  - intros v Hin Hne. unfold approval_applied. simpl.
    apply in_map_iff. exists v. apply String.eqb_neq in Hne. rewrite Hne. auto.
Qed.

(** X18.  The transaction carries no guard of its own: it tests neither the
    status of the payout nor the balance.  Run a second time with the same
    arguments on the world it has just committed to, it commits again:
    the owner's balance is lower by twice the requested credits (below zero
    if need be) and the ledger has two rows for it.  Only the lookup of
    lines 202-210 stands between a processed payout and a second
    deduction. *)
Theorem approveTransaction_not_guarded (req : Request)
    (payoutId admin payout : JsValue) (w w1 : World) :
  approveTransaction req payoutId admin payout w = (Ok tt, w1) ->
  exists w2 owner amount u,
    approveTransaction req payoutId admin payout w1 = (Ok tt, w2) /\
    get_prop payout "doctorId" = Ok (JStr owner) /\
    get_prop payout "credits" = Ok (JNum amount) /\
    find_user owner (db w) = Some u /\
    credits_of owner (db w2) = Some (user_credits u - amount - amount) /\
    creditTransactions (db w2)
    = (creditTransactions (db w)
       ++ [mkCreditTransaction owner (- amount) "ADMIN_ADJUSTMENT";
           mkCreditTransaction owner (- amount) "ADMIN_ADJUSTMENT"])%list.
Proof.
  intros H. apply approveTransaction_commit_char in H.
  destruct H as (pid & by_ & owner & amount & p & u & -> & Hby & G2 & G3 & Hp
                 & Hu & E1 & E4 & E7 & Ec & ->).
  assert (Hid : (user_id u =? owner)%string = true).
  { unfold find_user in Hu. apply find_some in Hu. apply Hu. }
  assert (Hu1 : find_user owner (approval_applied pid by_ owner amount (now req) (db w))
                = Some (decrement_credits amount u)).
  { rewrite find_user_approval_applied, Hu. simpl. rewrite Hid. reflexivity. }
  eexists _, owner, amount, u. split; [|repeat split; try assumption].
  - apply approveTransaction_commit_char.
    exists pid, by_, owner, amount, (mark_processed "PROCESSED" (now req) by_ p),
           (decrement_credits amount u).
    repeat split; try assumption.
    apply find_payout_by_id_approval_applied. exact Hp.
  - cbn [db]. unfold credits_of.
    rewrite find_user_approval_applied, Hu1. simpl. rewrite Hid. reflexivity.
  - cbn [db]. unfold approval_applied. simpl. rewrite <- app_assoc. reflexivity.
Qed.


(* ================================================================== *)
(** ** The further properties on the sample data *)

Lemma getPendingPayouts_lists_processing_witness :
  exists l,
    getPendingPayouts "lawyerId" Sample.byAdmin Sample.world
    = (Ok (JObj [("payouts",
                  JArr (map (payout_obj "lawyerId" user_select_obj Sample.store) l))]),
       Sample.world) /\
    Permutation l [Sample.payout50; Sample.payout150] /\
    StronglySorted (fun a b => payout_createdAt b <= payout_createdAt a) l.
Proof.
  apply (getPendingPayouts_lists_processing "lawyerId" Sample.byAdmin Sample.world).
  - apply sample_admin_resolves. reflexivity.
  - reflexivity.
Defined.

Lemma getPendingPayouts_owner_projection_witness :
  exists p,
    In p (payouts Sample.store) /\ payout_status p = "PROCESSING" /\
    JStr "p-50" = JStr (payout_id p) /\
    JObj [("id", JStr "u-prov"); ("name", JStr "Dan");
          ("email", JStr "dan@example.org"); ("specialty", JStr "tax");
          ("credits", JNum 100)]
    = match find_user (payout_owner p) Sample.store with
      | Some u =>
          JObj [("id", JStr (user_id u));
                ("name", JStr (user_name u));
                ("email", JStr (user_email u));
                ("specialty", JStr (user_specialty u));
                ("credits", JNum (user_credits u))]
      | None => JNull
      end.
Proof.
  apply (getPendingPayouts_owner_projection "lawyerId" Sample.byAdmin
           Sample.world (JObj [("payouts", JArr SampleMore.pendingEntries)])
           (payout_obj "lawyerId" user_select_obj Sample.store Sample.payout50)
           Sample.world SampleMore.pendingEntries).
  - discriminate.
  - reflexivity.
  - reflexivity.
  - right. left. reflexivity.
Defined.

Lemma getPendingDoctors_newest_first_witness :
  getPendingDoctors Sample.byAdmin SampleMore.registry
  = (Ok (JObj [("doctors",
                JArr (map user_obj [SampleMore.pendingB; SampleMore.pendingC;
                                    SampleMore.pendingA]))]),
     SampleMore.registry) /\
  exists l,
    getPendingDoctors Sample.byAdmin SampleMore.registry
    = (Ok (JObj [("doctors", JArr (map user_obj l))]), SampleMore.registry) /\
    Permutation l [SampleMore.pendingA; SampleMore.pendingB; SampleMore.pendingC] /\
    StronglySorted (fun a b => user_createdAt b <= user_createdAt a) l.
Proof.
  split; [reflexivity|].
  apply (getPendingDoctors_newest_first Sample.byAdmin SampleMore.registry).
  - apply sample_admin_resolves. reflexivity.
  - reflexivity.
Defined.

Lemma getVerifiedLawyers_by_name_witness :
  getVerifiedLawyers String.leb Sample.byAdmin SampleMore.registry
  = (Ok (JObj [("lawyers",
                JArr (map user_obj [SampleMore.verifiedA; SampleMore.verifiedM;
                                    SampleMore.verifiedZ]))]),
     SampleMore.registry) /\
  exists l,
    getVerifiedLawyers String.leb Sample.byAdmin SampleMore.registry
    = (Ok (JObj [("lawyers", JArr (map user_obj l))]), SampleMore.registry) /\
    Permutation l [SampleMore.verifiedM; SampleMore.verifiedZ; SampleMore.verifiedA] /\
    Sorted (fun a b => String.leb (user_name a) (user_name b) = true) l.
Proof.
  split; [reflexivity|].
  apply (getVerifiedLawyers_by_name String.leb Sample.byAdmin SampleMore.registry).
  - exact String.leb_total.
  - apply sample_admin_resolves. reflexivity.
  - reflexivity.
Defined.

Lemma listings_read_only_witness :
  db (snd (getPendingPayouts "lawyerId" SampleMore.byAdminStoreDown Sample.world))
  = Sample.store /\
  revalidated
    (snd (getPendingPayouts "lawyerId" SampleMore.byAdminStoreDown Sample.world))
  = [].
Proof.
  destruct (listings_read_only "lawyerId" String.leb
              SampleMore.byAdminStoreDown Sample.world) as (_ & _ & H).
  apply (H _ _ (surjective_pairing _)).
Defined.

Lemma listings_errors_witness :
  fst (getPendingPayouts "lawyerId" SampleMore.byAdminStoreDown Sample.world)
  = Throw "Failed to fetch pending payouts" /\
  fst (getVerifiedLawyers String.leb SampleMore.identityDown Sample.world)
  = Throw "identity provider unreachable".
Proof.
  destruct (listings_errors "lawyerId" String.leb SampleMore.byAdminStoreDown
              Sample.world) as (_ & _ & H).
  destruct (listings_errors "lawyerId" String.leb SampleMore.identityDown
              Sample.world) as (_ & H' & _).
  split.
  - destruct (H "Failed to fetch pending payouts"
                (snd (getPendingPayouts "lawyerId" SampleMore.byAdminStoreDown
                        Sample.world)) eq_refl) as [E|[E|E]].
    + discriminate E.
    + reflexivity.
    + discriminate E.
  - destruct (H' "identity provider unreachable" Sample.world eq_refl)
      as [E|E].
    + discriminate E.
    + reflexivity.
Defined.

Lemma updateLawyerStatus_outcomes_witness :
  exists id st,
    formData_get SampleMore.rejectApplicant "lawyerId" = JStr id /\
    formData_get SampleMore.rejectApplicant "status" = JStr st /\
    db (snd (updateLawyerStatus Sample.byAdmin SampleMore.rejectApplicant
               Sample.world))
    = update_users id (set_verificationStatus st) Sample.store.
Proof.
  destruct (updateLawyerStatus_outcomes Sample.byAdmin SampleMore.rejectApplicant
              Sample.world _ _ (surjective_pairing _))
    as [(_ & id & st & u & H1 & _ & H2 & _ & _ & _ & H3 & _)
       | (e & He & _)].
  - exists id, st. auto.
  - discriminate He.
Defined.

Lemma updateLawyerActiveStatus_outcomes_witness :
  exists e,
    fst (updateLawyerActiveStatus SampleMore.byAdminStoreDown
           SampleMore.suspendAdmin Sample.world) = Throw e /\
    db (snd (updateLawyerActiveStatus SampleMore.byAdminStoreDown
               SampleMore.suspendAdmin Sample.world)) = Sample.store.
Proof.
  destruct (updateLawyerActiveStatus_outcomes SampleMore.byAdminStoreDown
              SampleMore.suspendAdmin Sample.world _ _ (surjective_pairing _))
    as [(Hok & _) | (e & He & Hdb & _)].
  - discriminate Hok.
  - exists e. auto.
Defined.

Lemma status_updates_touch_only_the_status_witness :
  let w' := snd (updateLawyerStatus Sample.byAdmin SampleMore.rejectApplicant
                   Sample.world) in
  verificationStatus_of "u-appl" (db w') = Some "REJECTED" /\
  payouts (db w') = payouts Sample.store /\
  creditTransactions (db w') = [] /\
  Forall2 same_account (users Sample.store) (users (db w')) /\
  In Sample.provider (users (db w')).
Proof.
  destruct (status_updates_touch_only_the_status Sample.byAdmin
              SampleMore.rejectApplicant Sample.world _ _
              (or_introl (surjective_pairing _))) as (H1 & H2 & H3 & H4).
  split; [reflexivity|]. repeat split; try assumption.
  apply H4; [right; left; reflexivity | discriminate].
Defined.

Lemma status_updates_keep_admin_rights_witness :
  resolves_to_admin Sample.byAdmin
    (db (snd (updateLawyerActiveStatus Sample.byAdmin SampleMore.suspendAdmin
                Sample.world))) /\
  verificationStatus_of "u-admin"
    (db (snd (updateLawyerActiveStatus Sample.byAdmin SampleMore.suspendAdmin
                Sample.world))) = Some "PENDING".
Proof.
  split; [|reflexivity].
  apply (status_updates_keep_admin_rights Sample.byAdmin SampleMore.suspendAdmin
           Sample.world _ _ Sample.byAdmin (or_intror (surjective_pairing _))).
  apply sample_admin_resolves. reflexivity.
Defined.

Lemma updateLawyerStatus_last_write_wins_witness :
  exists w1 w2 w2',
    updateLawyerStatus Sample.byAdmin SampleMore.verifyApplicant Sample.world
    = (Ok success, w1) /\
    updateLawyerStatus Sample.byAdmin SampleMore.rejectApplicant w1
    = (Ok success, w2) /\
    updateLawyerStatus Sample.byAdmin SampleMore.rejectApplicant Sample.world
    = (Ok success, w2') /\
    db w2 = db w2' /\
    verificationStatus_of "u-appl" (db w2) = Some "REJECTED" /\
    ("VERIFIED" = "REJECTED" -> db w2 = db w1).
Proof.
  apply (updateLawyerStatus_last_write_wins Sample.byAdmin Sample.byAdmin
           SampleMore.verifyApplicant SampleMore.rejectApplicant
           "u-appl" "VERIFIED" "REJECTED" Sample.applicant Sample.world).
  - apply sample_admin_resolves. reflexivity.
  - apply sample_admin_resolves. reflexivity.
  - reflexivity.
  - reflexivity.
  - reflexivity.
  - reflexivity.
  - discriminate.
  - reflexivity.
  - reflexivity.
  - left. reflexivity.
  - right. reflexivity.
  - reflexivity.
Defined.

Lemma status_update_unknown_provider_witness :
  exists cause w',
    updateLawyerStatus Sample.byAdmin SampleMore.verifyNobody Sample.world
    = (Throw ("Failed to update lawyer status: " ++ cause), w') /\
    db w' = Sample.store /\ revalidated w' = [].
Proof.
  apply (status_update_unknown_provider Sample.byAdmin SampleMore.verifyNobody
           Sample.world).
  - apply sample_admin_resolves. reflexivity.
  - left. exists "u-nobody". repeat split. discriminate.
  - reflexivity.
Defined.

Lemma missing_id_rejected_witness :
  updateLawyerActiveStatus Sample.byAdmin (Sample.form [("suspend", "true")])
    Sample.world
  = (Throw "LAWYER ID is required", Sample.world) /\
  approvePayout "lawyerId" Sample.byAdmin (Sample.form [("payoutId", "")])
    Sample.world
  = (Throw "Payout ID is required", Sample.world).
Proof.
  split.
  - apply (missing_id_rejected "lawyerId" Sample.byAdmin
             (Sample.form [("suspend", "true")]) Sample.world).
    + apply sample_admin_resolves. reflexivity.
    + left. reflexivity.
  - apply (missing_id_rejected "lawyerId" Sample.byAdmin
             (Sample.form [("payoutId", "")]) Sample.world).
    + apply sample_admin_resolves. reflexivity.
    + right. reflexivity.
Defined.

Lemma store_error_message_reaches_caller_witness :
  fails_without_mutation "Failed to update lawyer status: connection lost"
    Sample.world
    (updateLawyerStatus SampleMore.byAdminStoreDown SampleMore.verifyApplicant
       Sample.world) /\
  fails_without_mutation "Failed to approve payout: connection lost"
    Sample.world
    (approvePayout "lawyerId" SampleMore.byAdminStoreDown
       (Sample.form [("payoutId", "p-50")]) Sample.world).
Proof.
  assert (Hadm : resolves_to_admin SampleMore.byAdminStoreDown (db Sample.world))
    by (apply sample_admin_resolves; reflexivity).
  split.
  - destruct (store_error_message_reaches_caller "lawyerId"
                SampleMore.byAdminStoreDown SampleMore.verifyApplicant
                Sample.world "connection lost" Hadm) as (H & _ & _).
    apply H; reflexivity.
  - destruct (store_error_message_reaches_caller "lawyerId"
                SampleMore.byAdminStoreDown (Sample.form [("payoutId", "p-50")])
                Sample.world "connection lost" Hadm) as (_ & _ & H).
    apply H; reflexivity.
Defined.

Lemma approveTransaction_commits_iff_witness :
  approveTransaction Sample.byAdmin (JStr "p-50") (user_obj Sample.admin)
    Sample.payout50_obj Sample.world
  = (Ok tt,
     mkWorld (approval_applied "p-50" "u-admin" "u-prov" 50 99 Sample.store)
             [] []).
Proof.
  apply (proj2 (approveTransaction_commits_iff Sample.byAdmin (JStr "p-50")
                  (user_obj Sample.admin) Sample.payout50_obj Sample.world _)).
  exists "p-50", "u-admin", "u-prov", 50, Sample.payout50, Sample.provider.
  repeat split; reflexivity.
Defined.

Lemma approveTransaction_effects_witness :
  exists pid by_ owner amount u,
    JStr "p-50" = JStr pid /\
    js_or (get_prop_opt (user_obj Sample.admin) "id") (JStr "unknown") = JStr by_ /\
    get_prop Sample.payout50_obj "doctorId" = Ok (JStr owner) /\
    get_prop Sample.payout50_obj "credits" = Ok (JNum amount) /\
    find_user owner Sample.store = Some u /\
    credits_of owner (db Sample.afterApproval) = Some (user_credits u - amount).
Proof.
  destruct (approveTransaction_effects Sample.byAdmin (JStr "p-50")
              (user_obj Sample.admin) Sample.payout50_obj Sample.world
              Sample.afterApproval eq_refl)
    as (pid & by_ & owner & amount & u & H1 & H2 & H3 & H4 & H5 & H6 & _).
  exists pid, by_, owner, amount, u. repeat split; assumption.
Defined.

Lemma approveTransaction_not_guarded_witness :
  exists w2,
    approveTransaction Sample.byAdmin (JStr "p-50") (user_obj Sample.admin)
      Sample.payout50_obj Sample.afterApproval = (Ok tt, w2) /\
    credits_of "u-prov" (db w2) = Some 0.
Proof.
  destruct (approveTransaction_not_guarded Sample.byAdmin (JStr "p-50")
              (user_obj Sample.admin) Sample.payout50_obj Sample.world
              Sample.afterApproval eq_refl)
    as (w2 & owner & amount & u & Hrun & Ho & Ha & Hu & Hc & _).
  exists w2. split; [exact Hrun|].
  injection Ho as <-. injection Ha as <-. injection Hu as <-. exact Hc.
Defined.
